(** * NetworkController: a shallow embedding and its checked properties

    The development follows [NetworkController.ts]: the controller state
    ([NetworkState]), the private fields of the class, the messenger it
    publishes on, and every public method.  Asynchronous methods are cut at
    their [await]: a method is a synchronous segment that may leave a pending
    frame behind, and a continuation that the event loop runs once the
    awaited promise has settled. *)

From Stdlib Require Import ZArith String Ascii List Bool Lia.
From stdpp Require Import base option list sorting gmap strings.

Local Open Scope string_scope.
Local Open Scope list_scope.

(** ** Data model *)

Definition Hex := string.
Definition NetworkId := string.
Definition NetworkConfigurationId := string.

(** [NetworkType] of controller-utils: the three Infura networks and [rpc].
    At run time the field holds an arbitrary string; [unrecognized] stands for
    any other one (the [default] branch of [#configureProvider]). *)
Inductive NetworkType :=
| mainnet
| goerli
| sepolia
| rpc
| unrecognized (name : string).

Inductive NetworkStatus :=
| Unknown
| Available
| Unavailable
| Blocked.

Record RpcPrefs := { blockExplorerUrl : option string }.

Record ProviderConfig := {
  pc_rpcUrl : option string;
  pc_type : NetworkType;
  pc_chainId : option Hex;
  pc_ticker : option string;
  pc_nickname : option string;
  pc_rpcPrefs : option RpcPrefs;
  pc_id : option NetworkConfigurationId
}.

Record Block := { baseFeePerGas : option string }.

Record NetworkDetails := { EIPS : gmap N bool }.

(** An entry of [networkConfigurations]: [NetworkConfiguration & { id }].
    [rpcUrl] and [chainId] may be missing at run time (the code guards both). *)
Record NetworkConfiguration := {
  nc_rpcUrl : option string;
  nc_chainId : option Hex;
  nc_ticker : string;
  nc_nickname : option string;
  nc_rpcPrefs : option RpcPrefs;
  nc_id : NetworkConfigurationId
}.

(** A JS object used as a record of entries: its own properties, in the
    order in which the keys were created.  [Object_values] below gives the
    order in which JS enumerates them. *)
Definition Registry := list (string * NetworkConfiguration).

Record NetworkState := {
  networkId : option NetworkId;
  networkStatus : NetworkStatus;
  providerConfig : ProviderConfig;
  networkDetails : NetworkDetails;
  networkConfigurations : Registry
}.

Definition defaultState : NetworkState :=
  {| networkId := None;
     networkStatus := Unknown;
     providerConfig :=
       {| pc_rpcUrl := None; pc_type := mainnet; pc_chainId := Some "0x1";
          pc_ticker := None; pc_nickname := None; pc_rpcPrefs := None;
          pc_id := None |};
     networkDetails := {| EIPS := ∅ |};
     networkConfigurations := [] |}.

(** [Partial<NetworkState>]: every top-level field may be absent. *)
Record PartialNetworkState := {
  opt_networkId : option (option NetworkId);
  opt_networkStatus : option NetworkStatus;
  opt_providerConfig : option ProviderConfig;
  opt_networkDetails : option NetworkDetails;
  opt_networkConfigurations : option Registry
}.

(** ** JavaScript values the controller inspects *)

(** The [code] property of an error object. *)
Inductive JsCode :=
| CodeNumber (n : Z)
| CodeString (s : string).

(** A rejection reason or thrown value, as far as the controller looks at it:
    whether it is a non-null object, whether it has a [code] property, and
    whether it owns a [message] property that is a string. *)
Inductive JsError :=
| ErrorObject (code : option JsCode) (message : option string)
| ErrorPrimitive.

(** [new Error(message)]: an object owning [message], without [code]. *)
Definition Error (message : string) : JsError := ErrorObject None (Some message).

(** The result of [net_version], of type [unknown] in the source. *)
Inductive JsValue :=
| JsNumber (rendered : string)   (* a number other than NaN, with the text of `${value}` *)
| JsNaN
| JsString (s : string)
| JsOther.

(** What [JSON.parse] returned, as far as the controller looks at it:
    whether it is a plain object and, if so, its [error] property when that
    is a string. *)
Inductive JsonValue :=
| JsonObject (error : option string)
| JsonOther.

(** What [object[key]] evaluates to on a record of entries: an entry of the
    record, a member of [Object.prototype], or [undefined]. *)
Inductive Property (V : Type) :=
| own (value : V)
| inherited
| undefined.
Arguments own {V} value.
Arguments inherited {V}.
Arguments undefined {V}.

(** A settled promise. *)
Inductive Response (A : Type) :=
| Rejected (error : JsError)
| Resolved (value : A).
Arguments Rejected {A} error.
Arguments Resolved {A} value.

(** ** What the controller imports

    Functions and constants of other packages, and of modules of this
    package that the controller only imports ([./constants]). *)
Class Dependencies := {
  (** [INFURA_BLOCKED_KEY] of [./constants]. *)
  INFURA_BLOCKED_KEY : string;
  (** [errorCodes.rpc.internal] of eth-rpc-errors. *)
  errorCodes_rpc_internal : Z;
  (** [JSON.parse]; [None] when it throws. *)
  JSON_parse : string -> option JsonValue;
  isStrictHexString : string -> bool;
  (** The text of `${convertHexToDecimal(value)}`. *)
  convertHexToDecimal : string -> string;
  isSafeChainId : Hex -> bool;
  (** [NetworksTicker[type]], [None] when [type] is not a key. *)
  NetworksTicker : NetworkType -> option string;
  (** [ChainId[type]]. *)
  ChainId : NetworkType -> option Hex;
  (** [BUILT_IN_NETWORKS[type].rpcPrefs]. *)
  BUILT_IN_NETWORKS_rpcPrefs : NetworkType -> option RpcPrefs;
  (** The message of the error thrown by [new URL(rpcUrl)], if it throws. *)
  URL_error : string -> option string;
  (** [String.prototype.toLowerCase]. *)
  toLowerCase : string -> string;
  (** The value returned by the n-th call of uuid's [v4]. *)
  random : nat -> string
}.

(** ** Effects *)

Inductive Event :=
| networkWillChange
| networkDidChange
| infuraIsBlocked
| infuraIsUnblocked
| stateChange.

(** The argument of [createNetworkClient]. *)
Inductive NetworkClientConfiguration :=
| InfuraClient (network : NetworkType) (infuraProjectId : string)
| CustomClient (chainId : Hex) (rpcUrl : string).

Inductive RpcMethod :=
| net_version
| eth_getBlockByNumber.

Record MetaMetricsEventPayload := {
  mm_event : string;
  mm_category : string;
  mm_referrer_url : string;
  mm_chain_id : Hex;
  mm_symbol : string;
  mm_source : string
}.

Inductive Effect :=
| Publish (e : Event)
| CreateNetworkClient (c : NetworkClientConfiguration)
| SendAsync (method : RpcMethod) (target : option NetworkClientConfiguration)
| TrackMetaMetricsEvent (payload : MetaMetricsEventPayload)
| DestroyBlockTracker.

(** One entry of the trace: what happened, and what a listener called at
    that moment reads: the controller state, and the targets of the two
    proxies that [getProviderAndBlockTracker] hands out. *)
Record Observation := {
  effect : Effect;
  seen : NetworkState;
  provider : option NetworkClientConfiguration;
  blockTracker : option NetworkClientConfiguration
}.

(** The variables of a suspended [lookupNetwork] call that its continuation
    and its [networkDidChange] listener read and write. *)
Record Frame := { isInfura : bool; networkChanged : bool }.

(** The controller object: the state of [BaseControllerV2], the private
    fields of the class, and what it shares with the messenger and with the
    event loop. *)
Record Controller := {
  state : NetworkState;
  ethQuery : bool;                      (* [#ethQuery] is defined; it wraps [#providerProxy] *)
  infuraProjectId : string;
  previousProviderConfig : ProviderConfig;
  providerProxy : option NetworkClientConfiguration;      (* the proxy's target *)
  blockTrackerProxy : option NetworkClientConfiguration;  (* the proxy's target *)
  subscribers : list nat;               (* [networkDidChange] listeners, by frame *)
  frames : gmap nat Frame;              (* suspended [lookupNetwork] calls *)
  nextFrame : nat;
  randomCalls : nat;                    (* how many times [random] was called *)
  trace : list Observation              (* oldest first *)
}.

Definition set_state (s : NetworkState) (c : Controller) : Controller :=
  {| state := s; ethQuery := ethQuery c; infuraProjectId := infuraProjectId c;
     previousProviderConfig := previousProviderConfig c;
     providerProxy := providerProxy c; blockTrackerProxy := blockTrackerProxy c;
     subscribers := subscribers c; frames := frames c; nextFrame := nextFrame c;
     randomCalls := randomCalls c; trace := trace c |}.

Definition set_ethQuery (b : bool) (c : Controller) : Controller :=
  {| state := state c; ethQuery := b; infuraProjectId := infuraProjectId c;
     previousProviderConfig := previousProviderConfig c;
     providerProxy := providerProxy c; blockTrackerProxy := blockTrackerProxy c;
     subscribers := subscribers c; frames := frames c; nextFrame := nextFrame c;
     randomCalls := randomCalls c; trace := trace c |}.

Definition set_previousProviderConfig (p : ProviderConfig) (c : Controller) : Controller :=
  {| state := state c; ethQuery := ethQuery c; infuraProjectId := infuraProjectId c;
     previousProviderConfig := p;
     providerProxy := providerProxy c; blockTrackerProxy := blockTrackerProxy c;
     subscribers := subscribers c; frames := frames c; nextFrame := nextFrame c;
     randomCalls := randomCalls c; trace := trace c |}.

Definition set_providerProxy (t : option NetworkClientConfiguration) (c : Controller) : Controller :=
  {| state := state c; ethQuery := ethQuery c; infuraProjectId := infuraProjectId c;
     previousProviderConfig := previousProviderConfig c;
     providerProxy := t; blockTrackerProxy := blockTrackerProxy c;
     subscribers := subscribers c; frames := frames c; nextFrame := nextFrame c;
     randomCalls := randomCalls c; trace := trace c |}.

Definition set_blockTrackerProxy (t : option NetworkClientConfiguration) (c : Controller) : Controller :=
  {| state := state c; ethQuery := ethQuery c; infuraProjectId := infuraProjectId c;
     previousProviderConfig := previousProviderConfig c;
     providerProxy := providerProxy c; blockTrackerProxy := t;
     subscribers := subscribers c; frames := frames c; nextFrame := nextFrame c;
     randomCalls := randomCalls c; trace := trace c |}.

Definition set_subscribers (l : list nat) (c : Controller) : Controller :=
  {| state := state c; ethQuery := ethQuery c; infuraProjectId := infuraProjectId c;
     previousProviderConfig := previousProviderConfig c;
     providerProxy := providerProxy c; blockTrackerProxy := blockTrackerProxy c;
     subscribers := l; frames := frames c; nextFrame := nextFrame c;
     randomCalls := randomCalls c; trace := trace c |}.

Definition set_frames (f : gmap nat Frame) (c : Controller) : Controller :=
  {| state := state c; ethQuery := ethQuery c; infuraProjectId := infuraProjectId c;
     previousProviderConfig := previousProviderConfig c;
     providerProxy := providerProxy c; blockTrackerProxy := blockTrackerProxy c;
     subscribers := subscribers c; frames := f; nextFrame := nextFrame c;
     randomCalls := randomCalls c; trace := trace c |}.

Definition set_nextFrame (n : nat) (c : Controller) : Controller :=
  {| state := state c; ethQuery := ethQuery c; infuraProjectId := infuraProjectId c;
     previousProviderConfig := previousProviderConfig c;
     providerProxy := providerProxy c; blockTrackerProxy := blockTrackerProxy c;
     subscribers := subscribers c; frames := frames c; nextFrame := n;
     randomCalls := randomCalls c; trace := trace c |}.

Definition set_randomCalls (n : nat) (c : Controller) : Controller :=
  {| state := state c; ethQuery := ethQuery c; infuraProjectId := infuraProjectId c;
     previousProviderConfig := previousProviderConfig c;
     providerProxy := providerProxy c; blockTrackerProxy := blockTrackerProxy c;
     subscribers := subscribers c; frames := frames c; nextFrame := nextFrame c;
     randomCalls := n; trace := trace c |}.

Definition set_trace (t : list Observation) (c : Controller) : Controller :=
  {| state := state c; ethQuery := ethQuery c; infuraProjectId := infuraProjectId c;
     previousProviderConfig := previousProviderConfig c;
     providerProxy := providerProxy c; blockTrackerProxy := blockTrackerProxy c;
     subscribers := subscribers c; frames := frames c; nextFrame := nextFrame c;
     randomCalls := randomCalls c; trace := t |}.

(** The entry for [e] happening on the controller [c]. *)
Definition observed (e : Effect) (c : Controller) : Observation :=
  {| effect := e; seen := state c;
     provider := providerProxy c; blockTracker := blockTrackerProxy c |}.

(** ** The monad of synchronous segments

    A segment reads and writes the controller and either returns or throws;
    what it wrote before throwing stays written. *)
Inductive Completion (A : Type) :=
| Return (value : A)
| Throw (error : JsError).
Arguments Return {A} value.
Arguments Throw {A} error.

Definition M (A : Type) := Controller -> Controller * Completion A.

Definition ret {A} (a : A) : M A := fun c => (c, Return a).

Definition throw {A} (e : JsError) : M A := fun c => (c, Throw e).

Definition bind {A B} (m : M A) (k : A -> M B) : M B :=
  fun c =>
    match m c with
    | (c', Return a) => k a c'
    | (c', Throw e) => (c', Throw e)
    end.

Definition gets {A} (f : Controller -> A) : M A := fun c => (c, Return (f c)).

Definition modify (f : Controller -> Controller) : M unit := fun c => (f c, Return tt).

Notation "x <- m ;; k" := (bind m (fun x => k))
  (at level 100, m at next level, right associativity).
Notation "m ;; k" := (bind m (fun _ => k))
  (at level 100, right associativity).

(** The controller after a segment, and how the segment completed. *)
Definition after {A} (m : M A) (c : Controller) : Controller := fst (m c).
Definition completion {A} (m : M A) (c : Controller) : Completion A := snd (m c).

(** ** The controller *)

Section NetworkController.
Context `{Dependencies}.

(** *** Messenger and base controller *)

Definition log (e : Effect) : M unit :=
  modify (fun c => set_trace (trace c ++ [observed e c]) c).

Definition subscribe (listener : nat) : M unit :=
  modify (fun c => set_subscribers (subscribers c ++ [listener]) c).

Definition unsubscribe (listener : nat) : M unit :=
  modify (fun c => set_subscribers (filter (fun l => l ≠ listener) (subscribers c)) c).

(** The [listener] closure of [lookupNetwork], for the call suspended in
    frame [p]. *)
Definition listener (p : nat) : M unit :=
  modify (fun c =>
    set_frames (alter (fun f => {| isInfura := isInfura f; networkChanged := true |}) p (frames c)) c) ;;
  unsubscribe p.

Fixpoint for_each {A} (f : A -> M unit) (l : list A) : M unit :=
  match l with
  | [] => ret tt
  | x :: r => f x ;; for_each f r
  end.

(** Modelled from the spec: the messenger of base-controller, an ordered
    in-process publish/subscribe bus.  [publish] calls the handlers
    subscribed to the event one after the other before it returns; the only
    handlers the controller itself subscribes are the [networkDidChange]
    listeners of suspended [lookupNetwork] calls. *)
Definition publish (e : Event) : M unit :=
  log (Publish e) ;;
  match e with
  | networkDidChange =>
      ls <- gets subscribers ;;
      for_each listener ls
  | _ => ret tt
  end.

(** Modelled from the spec: [update] of [BaseControllerV2] replaces the state
    by the outcome of the recipe in one step and publishes [stateChange]. *)
Definition update (recipe : NetworkState -> NetworkState) : M unit :=
  modify (fun c => set_state (recipe (state c)) c) ;;
  publish stateChange.

(** *** Module-level functions *)

Definition is_digit (a : ascii) : bool :=
  (48 <=? nat_of_ascii a)%nat && (nat_of_ascii a <=? 57)%nat.

(** [/^\d+$/u.test(value)] *)
Definition all_digits (s : string) : bool :=
  match list_ascii_of_string s with
  | [] => false
  | l => forallb is_digit l
  end.

(** [convertNetworkId]; [None] when it throws. *)
Definition convertNetworkId (value : JsValue) : option NetworkId :=
  match value with
  | JsNumber rendered => Some rendered
  | JsString s =>
      if isStrictHexString s then Some (convertHexToDecimal s)
      else if all_digits s then Some s
      else None
  | JsNaN | JsOther => None
  end.

Definition isErrorWithCode (error : JsError) : bool :=
  match error with
  | ErrorObject (Some _) _ => true
  | _ => false
  end.

Definition isInfuraProviderType (type : NetworkType) : bool :=
  match type with
  | mainnet | goerli | sepolia => true
  | _ => false
  end.

(** *** Provider set-up *)

Definition getProviderAndBlockTracker
  : M (option NetworkClientConfiguration * option NetworkClientConfiguration) :=
  gets (fun c => (providerProxy c, blockTrackerProxy c)).

Definition registerProvider : M unit :=
  pb <- getProviderAndBlockTracker ;;
  match fst pb with
  | Some _ => modify (set_ethQuery true)
  | None => ret tt
  end.

Definition setProviderAndBlockTracker (provider blockTracker : NetworkClientConfiguration) : M unit :=
  modify (fun c =>
    match providerProxy c with
    | Some _ => set_providerProxy (Some provider) c      (* setTarget *)
    | None => set_providerProxy (Some provider) c        (* createEventEmitterProxy *)
    end) ;;
  modify (fun c =>
    match blockTrackerProxy c with
    | Some _ => set_blockTrackerProxy (Some blockTracker) c
    | None => set_blockTrackerProxy (Some blockTracker) c
    end).

Definition updateProvider (provider blockTracker : NetworkClientConfiguration) : M unit :=
  setProviderAndBlockTracker provider blockTracker ;;
  registerProvider.

(** [createNetworkClient] builds a provider and a block tracker for the
    given description; both are identified with the description. *)
Definition createNetworkClient (cfg : NetworkClientConfiguration)
  : M (NetworkClientConfiguration * NetworkClientConfiguration) :=
  log (CreateNetworkClient cfg) ;;
  ret (cfg, cfg).

Definition setupInfuraProvider (type : NetworkType) : M unit :=
  projectId <- gets infuraProjectId ;;
  client <- createNetworkClient (InfuraClient type projectId) ;;
  updateProvider (fst client) (snd client).

Definition setupStandardProvider (rpcUrl : string) (chainId : Hex) : M unit :=
  client <- createNetworkClient (CustomClient chainId rpcUrl) ;;
  updateProvider (fst client) (snd client).

Definition configureProvider (type : NetworkType) (rpcUrl : option string) (chainId : option Hex) : M unit :=
  match type with
  | mainnet | goerli | sepolia => setupInfuraProvider type
  | rpc =>
      match chainId with
      | None => throw (Error "chainId must be provided for custom RPC endpoints")
      | Some chainId =>
          match rpcUrl with
          | None => throw (Error "rpcUrl must be provided for custom RPC endpoints")
          | Some rpcUrl => setupStandardProvider rpcUrl chainId
          end
      end
  | unrecognized name => throw (Error ("Unrecognized network type: '" +:+ name +:+ "'"))
  end.

(** *** Requests *)

(** [#ethQuery.sendAsync]: the request goes to the proxy's target of the
    moment.  Both callers, [lookupNetwork] and [getEIP1559Compatibility],
    return before they get here when [#ethQuery] is undefined, so the
    [throw] that [#getNetworkId] and [#getLatestBlock] have for that case is
    not taken. *)
Definition sendAsync (method : RpcMethod) : M unit :=
  target <- gets providerProxy ;;
  log (SendAsync method target).

(** How the promise of [#getNetworkId] settles, given the answer to
    [net_version]. *)
Definition getNetworkId_settle (r : Response JsValue) : Response NetworkId :=
  match r with
  | Rejected error => Rejected error
  | Resolved result =>
      match convertNetworkId result with
      | Some networkId => Resolved networkId
      | None => Rejected (Error "Cannot parse as a valid network ID")
      end
  end.

(** How the promise of [#determineEIP1559Compatibility] settles, given the
    answer to [eth_getBlockByNumber]; a [null] block is [None]. *)
Definition determineEIP1559Compatibility_settle (r : Response (option Block)) : Response bool :=
  match r with
  | Rejected error => Rejected error
  | Resolved latestBlock =>
      Resolved (match latestBlock with
                | Some b => bool_decide (baseFeePerGas b ≠ None)
                | None => false
                end)
  end.

(** The answers to the two requests of a probe, and which of them came
    first. *)
Record Settlement := {
  netVersion : Response JsValue;
  latestBlock : Response (option Block);
  first : RpcMethod
}.

(** [Promise.all] over the two promises: both values, or the rejection that
    happened first. *)
Definition Promise_all (s : Settlement) : Response (NetworkId * bool) :=
  match getNetworkId_settle (netVersion s), determineEIP1559Compatibility_settle (latestBlock s) with
  | Resolved networkId, Resolved isEIP1559Compatible => Resolved (networkId, isEIP1559Compatible)
  | Rejected e, Resolved _ => Rejected e
  | Resolved _, Rejected e => Rejected e
  | Rejected e1, Rejected e2 =>
      match first s with
      | net_version => Rejected e1
      | eth_getBlockByNumber => Rejected e2
      end
  end.

(** *** lookupNetwork *)

(** What an [async] method leaves behind when its synchronous segment ends:
    nothing, or a call suspended at an [await]. *)
Inductive Async :=
| Done
| Suspended (frame : nat).

(** The [catch] block of [lookupNetwork]. *)
Definition lookupNetwork_catch (isInfura : bool) (error : JsError) : NetworkStatus :=
  if isErrorWithCode error then
    let responseBody :=
      match error with
      | ErrorObject _ (Some message) => if isInfura then JSON_parse message else None
      | _ => None
      end in
    if match responseBody with
       | Some (JsonObject (Some e)) => String.eqb e INFURA_BLOCKED_KEY
       | _ => false
       end
    then Blocked
    else if match error with
            | ErrorObject (Some (CodeNumber n)) _ => Z.eqb n errorCodes_rpc_internal
            | _ => false
            end
    then Unknown
    else Unavailable
  else Unknown.

(** The three [updated...] variables after the [try]/[catch]. *)
Definition lookupNetwork_try (isInfura : bool) (s : Settlement)
  : NetworkStatus * option NetworkId * option bool :=
  match Promise_all s with
  | Resolved (networkId, isEIP1559Compatible) =>
      (Available, Some networkId, Some isEIP1559Compatible)
  | Rejected error => (lookupNetwork_catch isInfura error, None, None)
  end.

(** The recipe of the [update] that commits a probe. *)
Definition lookupNetwork_commit (updatedNetworkId : option NetworkId)
    (updatedNetworkStatus : NetworkStatus) (updatedIsEIP1559Compatible : option bool)
    (s : NetworkState) : NetworkState :=
  {| networkId := updatedNetworkId;
     networkStatus := updatedNetworkStatus;
     providerConfig := providerConfig s;
     networkDetails :=
       {| EIPS := match updatedIsEIP1559Compatible with
                  | None => delete 1559%N (EIPS (networkDetails s))
                  | Some b => <[1559%N := b]> (EIPS (networkDetails s))
                  end |};
     networkConfigurations := networkConfigurations s |}.

(** A call that is going to be suspended gets a frame for its variables. *)
Definition enter (f : Frame) : M nat :=
  fun c =>
    let p := nextFrame c in
    (set_nextFrame (S p) (set_frames (<[p := f]> (frames c)) c), Return p).

(** [lookupNetwork] up to its [await]: the listener is subscribed and both
    requests are sent. *)
Definition lookupNetwork : M Async :=
  q <- gets ethQuery ;;
  if negb q then ret Done
  else
    type <- gets (fun c => pc_type (providerConfig (state c))) ;;
    p <- enter {| isInfura := isInfuraProviderType type; networkChanged := false |} ;;
    subscribe p ;;
    sendAsync net_version ;;
    sendAsync eth_getBlockByNumber ;;
    ret (Suspended p).

(** The suspended call returns: its frame is gone. *)
Definition leave (p : nat) : M unit :=
  modify (fun c => set_frames (delete p (frames c)) c).

(** [lookupNetwork] from its [await] on, once [Promise.all] has settled. *)
Definition lookupNetwork_resume (p : nat) (s : Settlement) : M unit :=
  fr <- gets (fun c => frames c !! p) ;;
  match fr with
  | None => ret tt
  | Some fr =>
      let '(updatedNetworkStatus, updatedNetworkId, updatedIsEIP1559Compatible) :=
        lookupNetwork_try (isInfura fr) s in
      if networkChanged fr then leave p
      else
        unsubscribe p ;;
        update (lookupNetwork_commit updatedNetworkId updatedNetworkStatus updatedIsEIP1559Compatible) ;;
        (if isInfura fr then
           match updatedNetworkStatus with
           | Available => publish infuraIsUnblocked
           | Blocked => publish infuraIsBlocked
           | _ => ret tt
           end
         else publish infuraIsUnblocked) ;;
        leave p
  end.

(** *** Switching *)

Definition refreshNetwork_reset (s : NetworkState) : NetworkState :=
  {| networkId := None;
     networkStatus := Unknown;
     providerConfig := providerConfig s;
     networkDetails := {| EIPS := ∅ |};
     networkConfigurations := networkConfigurations s |}.

Definition refreshNetwork : M Async :=
  publish networkWillChange ;;
  update refreshNetwork_reset ;;
  cfg <- gets (fun c => providerConfig (state c)) ;;
  configureProvider (pc_type cfg) (pc_rpcUrl cfg) (pc_chainId cfg) ;;
  publish networkDidChange ;;
  lookupNetwork.

Definition initializeProvider : M Async :=
  cfg <- gets (fun c => providerConfig (state c)) ;;
  configureProvider (pc_type cfg) (pc_rpcUrl cfg) (pc_chainId cfg) ;;
  registerProvider ;;
  lookupNetwork.

(** The error of a failed [assert]; the messages are given without their
    quotation marks. *)
Definition AssertionError (message : string) : JsError :=
  ErrorObject (Some (CodeString "ERR_ASSERTION")) (Some message).

Definition with_providerConfig (cfg : ProviderConfig) (s : NetworkState) : NetworkState :=
  {| networkId := networkId s;
     networkStatus := networkStatus s;
     providerConfig := cfg;
     networkDetails := networkDetails s;
     networkConfigurations := networkConfigurations s |}.

Definition setProviderType (type : NetworkType) : M Async :=
  match type with
  | rpc => throw (AssertionError "NetworkController - cannot call setProviderType with type rpc. Use setActiveNetwork")
  | _ =>
      if negb (isInfuraProviderType type)
      then throw (AssertionError "Unknown Infura provider type")
      else
        cfg <- gets (fun c => providerConfig (state c)) ;;
        modify (set_previousProviderConfig cfg) ;;
        let ticker :=
          match NetworksTicker type with
          | Some t => if (0 <? String.length t)%nat then t else "ETH"
          | None => "ETH"
          end in
        update (fun s =>
          with_providerConfig
            {| pc_type := type;
               pc_ticker := Some ticker;
               pc_chainId := ChainId type;
               pc_rpcPrefs := BUILT_IN_NETWORKS_rpcPrefs type;
               pc_rpcUrl := None;
               pc_nickname := None;
               pc_id := None |} s) ;;
        refreshNetwork
  end.

(** The own property [key] of a record of entries. *)
Fixpoint obj_get {V} (key : string) (o : list (string * V)) : option V :=
  match o with
  | [] => None
  | (k, v) :: r => if String.eqb k key then Some v else obj_get key r
  end.

(** [{ ...object, [key]: value }]: an existing key keeps its place, a new one
    goes last. *)
Fixpoint obj_set {V} (key : string) (value : V) (o : list (string * V)) : list (string * V) :=
  match o with
  | [] => [(key, value)]
  | (k, v) :: r => if String.eqb k key then (key, value) :: r else (k, v) :: obj_set key value r
  end.

(** [delete object[key]] *)
Fixpoint obj_delete {V} (key : string) (o : list (string * V)) : list (string * V) :=
  match o with
  | [] => []
  | (k, v) :: r => if String.eqb k key then obj_delete key r else (k, v) :: obj_delete key r
  end.

(** The property names of [Object.prototype], the prototype of the plain
    objects that the state holds: the ones of the language and the legacy
    ones that Node and the browsers add.  Each has a truthy value: a
    function, or [Object.prototype] itself for [__proto__]. *)
Definition Object_prototype : list string :=
  ["constructor"; "hasOwnProperty"; "isPrototypeOf"; "propertyIsEnumerable";
   "toLocaleString"; "toString"; "valueOf"; "__proto__";
   "__defineGetter__"; "__defineSetter__"; "__lookupGetter__"; "__lookupSetter__"].

(** [object[key]]: an own property hides an inherited one. *)
Definition obj_index {V} (key : string) (o : list (string * V)) : Property V :=
  match obj_get key o with
  | Some v => own v
  | None => if bool_decide (key ∈ Object_prototype) then inherited else undefined
  end.

(** The number that a decimal digit stands for. *)
Definition digit (a : ascii) : option N :=
  let n := N_of_ascii a in
  if ((48 <=? n) && (n <=? 57))%N then Some (n - 48)%N else None.

Fixpoint decimal (acc : N) (s : string) : option N :=
  match s with
  | EmptyString => Some acc
  | String a r =>
      match digit a with
      | Some d => decimal (10 * acc + d)%N r
      | None => None
      end
  end.

(** The key is an array index: the decimal numeral, without a sign or
    leading zeros, of an integer below 2^32 - 1. *)
Definition array_index (key : string) : option N :=
  match key with
  | EmptyString => None
  | String "0" EmptyString => Some 0%N
  | String "0" _ => None
  | _ =>
      match decimal 0 key with
      | Some n => if (n <? 4294967295)%N then Some n else None
      | None => None
      end
  end.

(** The order of two properties whose keys are array indices. *)
Definition by_index {A} (a b : N * A) : Prop := (a.1 <= b.1)%N.

#[global] Instance by_index_dec {A} (a b : N * A) : Decision (by_index a b) :=
  decide (a.1 <= b.1)%N.

(** The own properties in the order in which JS enumerates them: the array
    indices in ascending order, then the other keys in the order in which
    they were created. *)
Definition own_properties {V} (o : list (string * V)) : list (string * V) :=
  map snd
    (merge_sort by_index
       (omap (fun kv : string * V => n ← array_index kv.1; Some (n, kv)) o))
  ++ filter (fun kv : string * V => array_index kv.1 = None) o.

(** [Object.values(object)] *)
Definition Object_values {V} (o : list (string * V)) : list V := map snd (own_properties o).

Definition setActiveNetwork (networkConfigurationId : string) : M Async :=
  cfg <- gets (fun c => providerConfig (state c)) ;;
  modify (set_previousProviderConfig cfg) ;;
  targetNetwork <- gets (fun c => obj_index networkConfigurationId (networkConfigurations (state c))) ;;
  match targetNetwork with
  | undefined =>
      throw (Error ("networkConfigurationId " +:+ networkConfigurationId +:+
                    " does not match a configured networkConfiguration"))
  | own targetNetwork =>
      update (fun s =>
        with_providerConfig
          {| pc_type := rpc;
             pc_rpcUrl := nc_rpcUrl targetNetwork;
             pc_chainId := nc_chainId targetNetwork;
             pc_ticker := Some (nc_ticker targetNetwork);
             pc_nickname := nc_nickname targetNetwork;
             pc_rpcPrefs := nc_rpcPrefs targetNetwork;
             pc_id := Some (nc_id targetNetwork) |} s) ;;
      refreshNetwork
  | inherited =>
      (* a member of [Object.prototype] has none of the fields that are read *)
      update (fun s =>
        with_providerConfig
          {| pc_type := rpc;
             pc_rpcUrl := None;
             pc_chainId := None;
             pc_ticker := None;
             pc_nickname := None;
             pc_rpcPrefs := None;
             pc_id := None |} s) ;;
      refreshNetwork
  end.

Definition resetConnection : M Async := refreshNetwork.

Definition rollbackToPreviousProvider : M Async :=
  previous <- gets previousProviderConfig ;;
  update (with_providerConfig previous) ;;
  refreshNetwork.

Definition destroy : M unit :=
  tracker <- gets blockTrackerProxy ;;
  match tracker with
  | Some _ => log DestroyBlockTracker
  | None => ret tt
  end.

(** *** EIP-1559 *)

Definition with_EIP1559 (b : bool) (s : NetworkState) : NetworkState :=
  {| networkId := networkId s;
     networkStatus := networkStatus s;
     providerConfig := providerConfig s;
     networkDetails := {| EIPS := <[1559%N := b]> (EIPS (networkDetails s)) |};
     networkConfigurations := networkConfigurations s |}.

(** [getEIP1559Compatibility] up to its [await]: [Some b] when the promise
    it returns is already resolved with [b], [None] when the call is
    suspended on the request for the latest block. *)
Definition getEIP1559Compatibility : M (option bool) :=
  eips <- gets (fun c => EIPS (networkDetails (state c))) ;;
  match eips !! 1559%N with
  | Some b => ret (Some b)
  | None =>
      q <- gets ethQuery ;;
      if negb q then ret (Some false)
      else sendAsync eth_getBlockByNumber ;; ret None
  end.

(** [getEIP1559Compatibility] from its [await] on. *)
Definition getEIP1559Compatibility_resume (r : Response (option Block)) : M bool :=
  match determineEIP1559Compatibility_settle r with
  | Rejected error => throw error
  | Resolved isEIP1559Compatible =>
      update (with_EIP1559 isEIP1559Compatible) ;;
      ret isEIP1559Compatible
  end.

(** *** Network configurations *)

(** The first argument of [upsertNetworkConfiguration]; [rpcUrl] and
    [ticker] are tested for falsiness, so they may be missing. *)
Record NetworkConfigurationInput := {
  in_rpcUrl : option string;
  in_chainId : string;
  in_ticker : option string;
  in_nickname : option string;
  in_rpcPrefs : option RpcPrefs
}.

Record UpsertOptions := {
  setActive : bool;
  referrer : option string;
  source : option string
}.

(** A string-or-undefined value that passes [if (value)]. *)
Definition truthy (s : option string) : option string :=
  match s with
  | Some "" => None
  | other => other
  end.

(** [haystack.includes(needle)] *)
Fixpoint includes (needle haystack : string) : bool :=
  String.prefix needle haystack ||
  match haystack with
  | EmptyString => false
  | String _ rest => includes needle rest
  end.

(** The callback of [find] in [upsertNetworkConfiguration]. *)
Definition sameRpcUrl (rpcUrl : string) (networkConfiguration : NetworkConfiguration) : bool :=
  match nc_rpcUrl networkConfiguration with
  | Some url => String.eqb (toLowerCase url) (toLowerCase rpcUrl)
  | None => false
  end.

Definition with_networkConfigurations (r : Registry) (s : NetworkState) : NetworkState :=
  {| networkId := networkId s;
     networkStatus := networkStatus s;
     providerConfig := providerConfig s;
     networkDetails := networkDetails s;
     networkConfigurations := r |}.

Definition trackMetaMetricsEvent (payload : MetaMetricsEventPayload) : M unit :=
  log (TrackMetaMetricsEvent payload).

(** uuid's [v4]. *)
Definition random_v4 : M string :=
  n <- gets randomCalls ;;
  modify (set_randomCalls (S n)) ;;
  ret (random n).

(** [upsertNetworkConfiguration] up to the [await] of [setActiveNetwork]:
    the id its promise resolves with, and the suspended call if there is
    one. *)
Definition upsertNetworkConfiguration (input : NetworkConfigurationInput) (options : UpsertOptions)
  : M (string * Async) :=
  let chainId := in_chainId input in
  if negb (isStrictHexString chainId)
  then throw (Error "Value must be a hexadecimal string, starting with 0x.")
  else if negb (isSafeChainId chainId)
  then throw (Error ("Invalid chain ID " +:+ chainId +:+ ": numerical value greater than max safe value."))
  else
    match truthy (in_rpcUrl input) with
    | None => throw (Error "An rpcUrl is required to add or update network configuration")
    | Some rpcUrl =>
        match truthy (referrer options), truthy (source options) with
        | Some referrer, Some source =>
            if match URL_error rpcUrl with
               | Some message => includes "Invalid URL" message
               | None => false
               end
            then throw (Error "rpcUrl must be a valid URL")
            else
              match truthy (in_ticker input) with
              | None => throw (Error "A ticker is required to add or update networkConfiguration")
              | Some ticker =>
                  oldNetworkConfigurations <- gets (fun c => networkConfigurations (state c)) ;;
                  let oldNetworkConfigurationId :=
                    truthy (nc_id <$> find (sameRpcUrl rpcUrl) (Object_values oldNetworkConfigurations)) in
                  newNetworkConfigurationId <-
                    match oldNetworkConfigurationId with
                    | Some i => ret i
                    | None => random_v4
                    end ;;
                  update (with_networkConfigurations
                    (obj_set newNetworkConfigurationId
                       {| nc_rpcUrl := Some rpcUrl;
                          nc_chainId := Some chainId;
                          nc_ticker := ticker;
                          nc_nickname := in_nickname input;
                          nc_rpcPrefs := in_rpcPrefs input;
                          nc_id := newNetworkConfigurationId |}
                       oldNetworkConfigurations)) ;;
                  match oldNetworkConfigurationId with
                  | Some _ => ret tt
                  | None =>
                      trackMetaMetricsEvent
                        {| mm_event := "Custom Network Added";
                           mm_category := "Network";
                           mm_referrer_url := referrer;
                           mm_chain_id := chainId;
                           mm_symbol := ticker;
                           mm_source := source |}
                  end ;;
                  a <- (if setActive options then setActiveNetwork newNetworkConfigurationId else ret Done) ;;
                  ret (newNetworkConfigurationId, a)
              end
        | _, _ =>
            throw (Error "referrer and source are required arguments for adding or updating a network configuration")
        end
    end.

Definition removeNetworkConfiguration (networkConfigurationId : string) : M unit :=
  found <- gets (fun c => obj_index networkConfigurationId (networkConfigurations (state c))) ;;
  match found with
  | undefined =>
      throw (Error ("networkConfigurationId " +:+ networkConfigurationId +:+
                    " does not match a configured networkConfiguration"))
  | own _ | inherited =>
      update (fun s => with_networkConfigurations
                         (obj_delete networkConfigurationId (networkConfigurations s)) s)
  end.

(** *** Construction *)

(** [{ ...defaultState, ...state }] *)
Definition spread (defaults : NetworkState) (s : PartialNetworkState) : NetworkState :=
  {| networkId := default (networkId defaults) (opt_networkId s);
     networkStatus := default (networkStatus defaults) (opt_networkStatus s);
     providerConfig := default (providerConfig defaults) (opt_providerConfig s);
     networkDetails := default (networkDetails defaults) (opt_networkDetails s);
     networkConfigurations := default (networkConfigurations defaults) (opt_networkConfigurations s) |}.

(** [new NetworkController({ state, infuraProjectId, ... })]; the project
    id is [None] when the argument is not a string. *)
Definition new_NetworkController (s : PartialNetworkState) (projectId : option string)
  : Completion Controller :=
  let initial := spread defaultState s in
  match truthy projectId with
  | None => Throw (Error "Invalid Infura project ID")
  | Some projectId =>
      Return {| state := initial;
                ethQuery := false;
                infuraProjectId := projectId;
                previousProviderConfig := providerConfig initial;
                providerProxy := None;
                blockTrackerProxy := None;
                subscribers := [];
                frames := ∅;
                nextFrame := 0;
                randomCalls := 0;
                trace := [] |}
  end.

(** *** The event loop

    Everything that can run as one uninterrupted turn: a call of a public
    method up to its first [await], or the continuation of a suspended
    call. *)
Inductive Turn :=
| call_initializeProvider
| call_lookupNetwork
| call_setProviderType (type : NetworkType)
| call_setActiveNetwork (networkConfigurationId : string)
| call_resetConnection
| call_rollbackToPreviousProvider
| call_getEIP1559Compatibility
| call_upsertNetworkConfiguration (input : NetworkConfigurationInput) (options : UpsertOptions)
| call_removeNetworkConfiguration (networkConfigurationId : string)
| call_destroy
| resume_lookupNetwork (frame : nat) (settlement : Settlement)
| resume_getEIP1559Compatibility (answer : Response (option Block)).

Definition turn (t : Turn) (c : Controller) : Controller :=
  match t with
  | call_initializeProvider => after initializeProvider c
  | call_lookupNetwork => after lookupNetwork c
  | call_setProviderType type => after (setProviderType type) c
  | call_setActiveNetwork i => after (setActiveNetwork i) c
  | call_resetConnection => after resetConnection c
  | call_rollbackToPreviousProvider => after rollbackToPreviousProvider c
  | call_getEIP1559Compatibility => after getEIP1559Compatibility c
  | call_upsertNetworkConfiguration input options => after (upsertNetworkConfiguration input options) c
  | call_removeNetworkConfiguration i => after (removeNetworkConfiguration i) c
  | call_destroy => after destroy c
  | resume_lookupNetwork p s => after (lookupNetwork_resume p s) c
  | resume_getEIP1559Compatibility r => after (getEIP1559Compatibility_resume r) c
  end.

(** A run of the event loop: the turns in the order they are taken. *)
Definition turns (l : list Turn) (c : Controller) : Controller :=
  fold_left (fun c t => turn t c) l c.

End NetworkController.

(** ** Sample values

    The values the test suite expects of the imported tables
    ([INFURA_NETWORKS], [BLOCKED_INFURA_JSON_RPC_ERROR]); they instantiate
    the statements below on concrete inputs. *)

Definition blocked_message : string := "{error:countryBlocked}".

Definition sample_Dependencies : Dependencies :=
  {| INFURA_BLOCKED_KEY := "countryBlocked";
     errorCodes_rpc_internal := (-32603)%Z;
     JSON_parse := fun s =>
       if String.eqb s blocked_message then Some (JsonObject (Some "countryBlocked"))
       else if String.eqb s "{error:oops}" then Some (JsonObject (Some "oops"))
       else None;
     isStrictHexString := fun s => String.prefix "0x" s && (2 <? String.length s)%nat;
     convertHexToDecimal := fun s => if String.eqb s "0x1" then "1" else if String.eqb s "0x5" then "5" else "0";
     isSafeChainId := fun _ => true;
     NetworksTicker := fun t =>
       match t with
       | mainnet => Some "ETH"
       | goerli => Some "GoerliETH"
       | sepolia => Some "SepoliaETH"
       | _ => None
       end;
     ChainId := fun t =>
       match t with
       | mainnet => Some "0x1"
       | goerli => Some "0x5"
       | sepolia => Some "0xaa36a7"
       | _ => None
       end;
     BUILT_IN_NETWORKS_rpcPrefs := fun t =>
       match t with
       | mainnet => Some {| blockExplorerUrl := Some "https://etherscan.io" |}
       | goerli => Some {| blockExplorerUrl := Some "https://goerli.etherscan.io" |}
       | sepolia => Some {| blockExplorerUrl := Some "https://sepolia.etherscan.io" |}
       | _ => None
       end;
     URL_error := fun s => if includes "://" s then None else Some "Invalid URL";
     toLowerCase := fun s =>
       string_of_list_ascii
         (map (fun a => let n := nat_of_ascii a in
                        if (65 <=? n)%nat && (n <=? 90)%nat then ascii_of_nat (n + 32) else a)
              (list_ascii_of_string s));
     random := fun n => "uuid-" +:+ string_of_list_ascii (repeat "I"%char (S n)) |}.

Definition no_state : PartialNetworkState :=
  {| opt_networkId := None; opt_networkStatus := None; opt_providerConfig := None;
     opt_networkDetails := None; opt_networkConfigurations := None |}.

(** A controller built with the default state and a project id. *)
Definition fresh_controller : Controller :=
  match new_NetworkController no_state (Some "infura-project-id") with
  | Return c => c
  | Throw _ =>
      {| state := defaultState; ethQuery := false; infuraProjectId := "";
         previousProviderConfig := providerConfig defaultState;
         providerProxy := None; blockTrackerProxy := None; subscribers := [];
         frames := ∅; nextFrame := 0; randomCalls := 0; trace := [] |}
  end.

(** The same controller after [initializeProvider] and an answered probe. *)
Definition good_settlement : Settlement :=
  {| netVersion := Resolved (JsString "1");
     latestBlock := Resolved (Some {| baseFeePerGas := Some "0x63c498a46" |});
     first := net_version |}.

Definition on_mainnet : Controller :=
  turns (H := sample_Dependencies)
    [call_initializeProvider; resume_lookupNetwork 0 good_settlement] fresh_controller.

(** ... and after a switch to goerli, with its probe still suspended. *)
Definition on_goerli : Controller :=
  turns (H := sample_Dependencies) [call_setProviderType goerli] on_mainnet.


(** A partial state that gives a [providerConfig] without [chainId] and
    nothing else. *)
Definition only_providerConfig : PartialNetworkState :=
  {| opt_networkId := None; opt_networkStatus := None;
     opt_providerConfig :=
       Some {| pc_rpcUrl := Some "http://example-custom-rpc.metamask.io"; pc_type := rpc;
               pc_chainId := None; pc_ticker := None;
               pc_nickname := Some "Test initial state"; pc_rpcPrefs := None; pc_id := None |};
     opt_networkDetails := None; opt_networkConfigurations := None |}.

(** [on_mainnet] with a second probe suspended. *)
Definition probing_mainnet : Controller :=
  turns (H := sample_Dependencies) [call_lookupNetwork] on_mainnet.

(** Answers in which [net_version] yields something that is no network id. *)
Definition invalid_id_settlement : Settlement :=
  {| netVersion := Resolved (JsString "invalid");
     latestBlock := Resolved (Some {| baseFeePerGas := Some "0x63c498a46" |});
     first := net_version |}.

(** Answers in which [net_version] fails with a JSON-RPC error that is
    neither internal nor blocked. *)
Definition limit_exceeded_settlement : Settlement :=
  {| netVersion := Rejected (ErrorObject (Some (CodeNumber (-32005))) (Some "limit exceeded"));
     latestBlock := Resolved (Some {| baseFeePerGas := Some "0x63c498a46" |});
     first := net_version |}.

(** A controller whose provider is set up but whose state holds no
    EIP-1559 flag: freshly initialized, the probe not yet answered. *)
Definition initialized : Controller :=
  turns (H := sample_Dependencies) [call_initializeProvider] fresh_controller.

(** Two definitions of the same endpoint, the URLs differing by case. *)
Definition first_definition : NetworkConfigurationInput :=
  {| in_rpcUrl := Some "https://x"; in_chainId := "0x1"; in_ticker := Some "ETH";
     in_nickname := None; in_rpcPrefs := None |}.

Definition second_definition : NetworkConfigurationInput :=
  {| in_rpcUrl := Some "HTTPS://X"; in_chainId := "0x1"; in_ticker := Some "X";
     in_nickname := None; in_rpcPrefs := None |}.

Definition from_a_dapp : UpsertOptions :=
  {| setActive := false; referrer := Some "a"; source := Some "b" |}.

(** A controller whose record holds the first definition. *)
Definition with_one_network : Controller :=
  turns (H := sample_Dependencies)
    [call_upsertNetworkConfiguration first_definition from_a_dapp] fresh_controller.

(** A controller whose record holds a configuration without RPC URL. *)
Definition incomplete_configuration : NetworkConfiguration :=
  {| nc_rpcUrl := None; nc_chainId := Some "0x6f"; nc_ticker := "TEST";
     nc_nickname := None; nc_rpcPrefs := None; nc_id := "testNetworkConfigurationId" |}.

Definition with_incomplete_network : Controller :=
  match new_NetworkController
          {| opt_networkId := None; opt_networkStatus := None; opt_providerConfig := None;
             opt_networkDetails := None;
             opt_networkConfigurations :=
               Some [("testNetworkConfigurationId", incomplete_configuration)] |}
          (Some "infura-project-id") with
  | Return c => c
  | Throw _ => fresh_controller
  end.




(** A definition whose chain id is no hexadecimal string. *)
Definition decimal_chain_definition : NetworkConfigurationInput :=
  {| in_rpcUrl := Some "https://x"; in_chainId := "1"; in_ticker := Some "ETH";
     in_nickname := None; in_rpcPrefs := None |}.

Definition and_switch : UpsertOptions :=
  {| setActive := true; referrer := Some "a"; source := Some "b" |}.

(** ** Vocabulary of the statements *)

#[global] Instance Event_eq_dec : EqDecision Event.
Proof. solve_decision. Defined.

(** The events published so far, oldest first. *)
Definition publications (t : list Observation) : list Event :=
  omap (fun o => match effect o with Publish e => Some e | _ => None end) t.

(** How many times [e] has been published so far. *)
Definition published (e : Event) (c : Controller) : nat :=
  count_occ Event_eq_dec (publications (trace c)) e.

(** [I] holds after the segment whenever it holds before, however the
    segment completes. *)
Definition stable {A} (I : Controller -> Prop) (m : M A) : Prop :=
  forall c, I c -> I (after m c).

(** The controller once [update] has run [recipe]. *)
Definition updated (recipe : NetworkState -> NetworkState) (c : Controller) : Controller :=
  let s := recipe (state c) in
  set_trace (trace c ++ [observed (Publish stateChange) (set_state s c)]) (set_state s c).

(** The [providerConfig] that [setProviderType] writes. *)
Definition infura_providerConfig `{Dependencies} (type : NetworkType) : ProviderConfig :=
  {| pc_type := type;
     pc_ticker := Some match NetworksTicker type with
                       | Some t => if (0 <? String.length t)%nat then t else "ETH"
                       | None => "ETH"
                       end;
     pc_chainId := ChainId type;
     pc_rpcPrefs := BUILT_IN_NETWORKS_rpcPrefs type;
     pc_rpcUrl := None;
     pc_nickname := None;
     pc_id := None |}.

(** The [providerConfig] that [setActiveNetwork] writes. *)
Definition custom_providerConfig (targetNetwork : NetworkConfiguration) : ProviderConfig :=
  {| pc_type := rpc;
     pc_rpcUrl := nc_rpcUrl targetNetwork;
     pc_chainId := nc_chainId targetNetwork;
     pc_ticker := Some (nc_ticker targetNetwork);
     pc_nickname := nc_nickname targetNetwork;
     pc_rpcPrefs := nc_rpcPrefs targetNetwork;
     pc_id := Some (nc_id targetNetwork) |}.

(** The call of [lookupNetwork] suspended in frame [p] is still suspended,
    it read [b] for [isInfura], and [networkDidChange] had been published
    [n] times when it subscribed: its [networkChanged] is still [false] and
    its listener still subscribed if there was no publication since, and
    [networkChanged] is [true] if there was one. *)
Definition suspended (p : nat) (b : bool) (n : nat) (c : Controller) : Prop :=
  p < nextFrame c /\
  exists fr, frames c !! p = Some fr /\ isInfura fr = b /\
    ((networkChanged fr = false /\ p ∈ subscribers c /\ published networkDidChange c = n) \/
     (networkChanged fr = true /\ n < published networkDidChange c)).

(** The turn is not the continuation of the call suspended in frame [p]. *)
Definition other_turn (p : nat) (t : Turn) : Prop :=
  match t with
  | resume_lookupNetwork q _ => q <> p
  | _ => True
  end.

(** The controller once [lookupNetwork] has been suspended. *)
Definition lookupNetwork_started (c : Controller) : Controller :=
  let p := nextFrame c in
  let fr := {| isInfura := isInfuraProviderType (pc_type (providerConfig (state c)));
               networkChanged := false |} in
  set_trace (trace c ++ [observed (SendAsync net_version (providerProxy c)) c;
                         observed (SendAsync eth_getBlockByNumber (providerProxy c)) c])
    (set_subscribers (subscribers c ++ [p])
       (set_nextFrame (S p) (set_frames (<[p := fr]> (frames c)) c))).

(** The event [lookupNetwork] ends with, if any. *)
Definition lookupNetwork_notification (isInfura : bool) (status : NetworkStatus) : option Event :=
  if isInfura then
    match status with
    | Available => Some infuraIsUnblocked
    | Blocked => Some infuraIsBlocked
    | _ => None
    end
  else Some infuraIsUnblocked.

(** The controller once the call suspended in frame [p], with variables
    [fr], has committed. *)
Definition lookupNetwork_committed `{Dependencies} (p : nat) (fr : Frame) (s : Settlement)
    (c : Controller) : Controller :=
  let '(status, networkId, compatible) := lookupNetwork_try (isInfura fr) s in
  let st := lookupNetwork_commit networkId status compatible (state c) in
  set_frames (delete p (frames c))
    (set_trace
       (trace c ++ observed (Publish stateChange) (set_state st c) ::
          match lookupNetwork_notification (isInfura fr) status with
          | Some e => [observed (Publish e) (set_state st c)]
          | None => []
          end)
       (set_state st (set_subscribers (filter (fun l => l ≠ p) (subscribers c)) c))).

(** The error carries the payload by which Infura says that it blocks the
    user. *)
Definition blocked_payload `{Dependencies} (error : JsError) : bool :=
  match error with
  | ErrorObject _ (Some message) =>
      match JSON_parse message with
      | Some (JsonObject (Some e)) => String.eqb e INFURA_BLOCKED_KEY
      | _ => false
      end
  | _ => false
  end.

(** The error has the code of a generic internal JSON-RPC error. *)
Definition internal_code `{Dependencies} (error : JsError) : bool :=
  match error with
  | ErrorObject (Some (CodeNumber n)) _ => Z.eqb n errorCodes_rpc_internal
  | _ => false
  end.

(** The client that [#configureProvider] asks for, when it does not throw. *)
Definition network_client (projectId : string) (cfg : ProviderConfig) : option NetworkClientConfiguration :=
  match pc_type cfg with
  | mainnet | goerli | sepolia => Some (InfuraClient (pc_type cfg) projectId)
  | rpc =>
      match pc_chainId cfg, pc_rpcUrl cfg with
      | Some chainId, Some rpcUrl => Some (CustomClient chainId rpcUrl)
      | _, _ => None
      end
  | unrecognized _ => None
  end.

(** The controller once [#configureProvider] has installed [client]. *)
Definition installed (client : NetworkClientConfiguration) (c : Controller) : Controller :=
  set_ethQuery true
    (set_blockTrackerProxy (Some client)
       (set_providerProxy (Some client)
          (set_trace (trace c ++ [observed (CreateNetworkClient client) c]) c))).

(** The [isEIP1559Compatible] computed from the answer to
    [eth_getBlockByNumber]. *)
Definition has_baseFeePerGas (latestBlock : option Block) : bool :=
  match latestBlock with
  | Some b => bool_decide (baseFeePerGas b ≠ None)
  | None => false
  end.

(** The requests sent so far, oldest first. *)
Definition requests (c : Controller) : list RpcMethod :=
  omap (fun o => match effect o with SendAsync m _ => Some m | _ => None end) (trace c).


(** [c'] differs from [c] at most in the listeners and in the flags of the
    frames: what a publication of [networkDidChange] may change besides the
    trace. *)
Definition apart_from_listeners (c c' : Controller) : Prop :=
  state c' = state c /\ ethQuery c' = ethQuery c /\
  infuraProjectId c' = infuraProjectId c /\
  previousProviderConfig c' = previousProviderConfig c /\
  providerProxy c' = providerProxy c /\ blockTrackerProxy c' = blockTrackerProxy c /\
  nextFrame c' = nextFrame c /\ randomCalls c' = randomCalls c /\ trace c' = trace c.



(** An entry of the trace: [e] happened while the state was [s] and the
    proxies had the targets [p] and [b]. *)
Definition saw (s : NetworkState) (p b : option NetworkClientConfiguration) (e : Effect)
  : Observation :=
  {| effect := e; seen := s; provider := p; blockTracker := b |}.

(** Every entry of the record is stored under its own id, and no id is the
    empty string. *)
Definition registry_wf (r : Registry) : bool :=
  forallb (fun ke => String.eqb (nc_id ke.2) ke.1 && negb (String.eqb ke.1 "")) r.

(** The entry that [upsertNetworkConfiguration] stores under [id]. *)
Definition upserted (input : NetworkConfigurationInput) (rpcUrl ticker : string)
    (id : NetworkConfigurationId) : NetworkConfiguration :=
  {| nc_rpcUrl := Some rpcUrl;
     nc_chainId := Some (in_chainId input);
     nc_ticker := ticker;
     nc_nickname := in_nickname input;
     nc_rpcPrefs := in_rpcPrefs input;
     nc_id := id |}.

(** The payload that [upsertNetworkConfiguration] tracks for a new entry. *)
Definition network_added (input : NetworkConfigurationInput) (ticker referrer source : string)
  : MetaMetricsEventPayload :=
  {| mm_event := "Custom Network Added";
     mm_category := "Network";
     mm_referrer_url := referrer;
     mm_chain_id := in_chainId input;
     mm_symbol := ticker;
     mm_source := source |}.

(** The URLs of the entries, lower-cased, in the order of the record. *)
Definition lowercase_urls `{Dependencies} (r : Registry) : list string :=
  omap (fun ke => toLowerCase <$> nc_rpcUrl ke.2) r.

(** The record holds every entry under its own non-empty id, no id twice
    and no URL twice up to case. *)
Definition registry_invariant `{Dependencies} (r : Registry) : Prop :=
  registry_wf r = true /\ NoDup (map fst r) /\ NoDup (lowercase_urls r).

(** The turn neither adds nor removes a network configuration. *)
Definition keeps_registry (t : Turn) : bool :=
  match t with
  | call_upsertNetworkConfiguration _ _ | call_removeNetworkConfiguration _ => false
  | _ => true
  end.

(** A request, if the entry is one, went to a client. *)
Definition sent_to_a_client (o : Observation) : Prop :=
  match effect o with
  | SendAsync _ None => False
  | _ => True
  end.

(** Both proxies have the same target, [#ethQuery] is defined exactly when
    they have one, and no request was sent without one. *)
Definition provider_invariant (c : Controller) : Prop :=
  providerProxy c = blockTrackerProxy c /\
  (ethQuery c = true <-> is_Some (providerProxy c)) /\
  Forall sent_to_a_client (trace c).

(** * Properties *)

Example on_mainnet_status :
  networkStatus (state on_mainnet) = Available /\
  networkId (state on_mainnet) = Some "1" /\
  EIPS (networkDetails (state on_mainnet)) !! 1559%N = Some true /\
  map effect (trace on_mainnet) =
    [CreateNetworkClient (InfuraClient mainnet "infura-project-id");
     SendAsync net_version (Some (InfuraClient mainnet "infura-project-id"));
     SendAsync eth_getBlockByNumber (Some (InfuraClient mainnet "infura-project-id"));
     Publish stateChange; Publish infuraIsUnblocked].
Proof. vm_compute. repeat split; reflexivity. Qed.

Example on_goerli_config :
  pc_type (providerConfig (state on_goerli)) = goerli /\
  pc_chainId (providerConfig (state on_goerli)) = Some "0x5" /\
  pc_ticker (providerConfig (state on_goerli)) = Some "GoerliETH" /\
  pc_type (previousProviderConfig on_goerli) = mainnet /\
  networkStatus (state on_goerli) = Unknown /\
  subscribers on_goerli = [1].
Proof. vm_compute. repeat split; reflexivity. Qed.

(** ** Reasoning about segments *)

Section Segments.
Context `{Dependencies}.

Lemma after_bind {A B} (m : M A) (k : A -> M B) c :
  after (m' <- m ;; k m') c =
  match completion m c with
  | Return a => after (k a) (after m c)
  | Throw _ => after m c
  end.
Proof.
  unfold after, completion, bind. destruct (m c) as [c' [a|e]]; reflexivity.
Qed.

Lemma stable_ret {A} I (a : A) : stable I (ret a).
Proof. intros c Hc. exact Hc. Qed.

Lemma stable_throw {A} I e : stable I (@throw A e).
Proof. intros c Hc. exact Hc. Qed.

Lemma stable_gets {A} I (f : Controller -> A) : stable I (gets f).
Proof. intros c Hc. exact Hc. Qed.

Lemma stable_modify I f : (forall c, I c -> I (f c)) -> stable I (modify f).
Proof. intros Hf c Hc. apply Hf, Hc. Qed.

Lemma stable_bind {A B} I (m : M A) (k : A -> M B) :
  stable I m -> (forall a, stable I (k a)) -> stable I (a <- m ;; k a).
Proof.
  intros Hm Hk c Hc. rewrite after_bind.
  destruct (completion m c); [apply Hk|]; apply Hm, Hc.
Qed.

Lemma stable_for_each {A} I (f : A -> M unit) l :
  (forall a, stable I (f a)) -> stable I (for_each f l).
Proof.
  intros Hf. induction l as [|a l IH]; simpl.
  - apply stable_ret.
  - apply stable_bind; auto.
Qed.

End Segments.

(** Walks through a segment down to its [modify] steps, which [leaf] must
    settle. *)
Ltac stable_with leaf :=
  repeat first
    [ apply stable_ret
    | apply stable_throw
    | apply stable_gets
    | apply stable_bind; [| intros ?]
    | apply stable_for_each; intros ?
    | apply stable_modify; intros ? ?; leaf
    | match goal with
      | |- stable _ (match ?x with _ => _ end) => destruct x
      end ].

(** The step does not write what the invariant reads. *)
Ltac untouched := repeat case_match; cbn in *; first [assumption | congruence].

Ltac unfold_methods :=
  unfold initializeProvider, setProviderType, setActiveNetwork, resetConnection,
    rollbackToPreviousProvider, upsertNetworkConfiguration, removeNetworkConfiguration,
    destroy, getEIP1559Compatibility, getEIP1559Compatibility_resume,
    lookupNetwork_resume, refreshNetwork, lookupNetwork, leave, enter, configureProvider,
    setupInfuraProvider, setupStandardProvider, createNetworkClient, updateProvider,
    setProviderAndBlockTracker, registerProvider, getProviderAndBlockTracker,
    sendAsync, trackMetaMetricsEvent, random_v4, update, publish, listener,
    subscribe, unsubscribe, log.

Section Configurations.
Context `{Dependencies}.

(** *** The methods, one step at a time *)

Lemma update_eq recipe c : update recipe c = (updated recipe c, Return tt).
Proof. reflexivity. Qed.

Lemma setProviderType_eq type c :
  isInfuraProviderType type = true ->
  setProviderType type c =
  refreshNetwork
    (updated (with_providerConfig (infura_providerConfig type))
       (set_previousProviderConfig (providerConfig (state c)) c)).
Proof. destruct type; try discriminate; reflexivity. Qed.

Lemma setProviderType_throws type c :
  isInfuraProviderType type = false ->
  exists e, setProviderType type c = (c, Throw e).
Proof. destruct type; try discriminate; eexists; reflexivity. Qed.

Lemma obj_index_own {V} i (o : list (string * V)) v :
  obj_get i o = Some v -> obj_index i o = own v.
Proof. unfold obj_index. intros ->. reflexivity. Qed.

Lemma obj_index_cases {V} i (o : list (string * V)) :
  match obj_index i o with
  | own v => obj_get i o = Some v
  | inherited => obj_get i o = None /\ i ∈ Object_prototype
  | undefined => obj_get i o = None /\ i ∉ Object_prototype
  end.
Proof.
  unfold obj_index. destruct (obj_get i o); [reflexivity|].
  case_bool_decide; auto.
Qed.

Lemma setActiveNetwork_found i c targetNetwork :
  obj_get i (networkConfigurations (state c)) = Some targetNetwork ->
  setActiveNetwork i c =
  refreshNetwork
    (updated (with_providerConfig (custom_providerConfig targetNetwork))
       (set_previousProviderConfig (providerConfig (state c)) c)).
Proof.
  intros Hget. unfold setActiveNetwork, bind, gets, modify. cbn.
  rewrite (obj_index_own _ _ _ Hget). reflexivity.
Qed.

Lemma setActiveNetwork_missing i c :
  obj_index i (networkConfigurations (state c)) = undefined ->
  setActiveNetwork i c =
  (set_previousProviderConfig (providerConfig (state c)) c,
   Throw (Error ("networkConfigurationId " +:+ i +:+
                 " does not match a configured networkConfiguration"))).
Proof.
  intros Hget. unfold setActiveNetwork, bind, gets, modify. cbn. rewrite Hget. reflexivity.
Qed.

(** The id names a member of [Object.prototype]: the active configuration
    gets the type [rpc] and nothing else. *)
Lemma setActiveNetwork_inherited i c :
  obj_index i (networkConfigurations (state c)) = inherited ->
  setActiveNetwork i c =
  refreshNetwork
    (updated (with_providerConfig
                {| pc_type := rpc; pc_rpcUrl := None; pc_chainId := None; pc_ticker := None;
                   pc_nickname := None; pc_rpcPrefs := None; pc_id := None |})
       (set_previousProviderConfig (providerConfig (state c)) c)).
Proof.
  intros Hget. unfold setActiveNetwork, bind, gets, modify. cbn. rewrite Hget. reflexivity.
Qed.

Lemma removeNetworkConfiguration_found i c :
  obj_index i (networkConfigurations (state c)) <> undefined ->
  removeNetworkConfiguration i c =
  (updated (fun s => with_networkConfigurations (obj_delete i (networkConfigurations s)) s) c,
   Return tt).
Proof.
  intros Hget. unfold removeNetworkConfiguration, bind, gets. cbn.
  destruct (obj_index i (networkConfigurations (state c))); [reflexivity..|congruence].
Qed.

Lemma removeNetworkConfiguration_missing i c :
  obj_index i (networkConfigurations (state c)) = undefined ->
  removeNetworkConfiguration i c =
  (c, Throw (Error ("networkConfigurationId " +:+ i +:+
                    " does not match a configured networkConfiguration"))).
Proof.
  intros Hget. unfold removeNetworkConfiguration, bind, gets. cbn. rewrite Hget. reflexivity.
Qed.

Lemma rollbackToPreviousProvider_eq c :
  rollbackToPreviousProvider c =
  refreshNetwork (updated (with_providerConfig (previousProviderConfig c)) c).
Proof. reflexivity. Qed.

(** *** Who writes the two configurations *)

(** Nothing but the two switch methods writes [#previousProviderConfig]. *)
Lemma refreshNetwork_previousProviderConfig x :
  stable (fun c => previousProviderConfig c = x) refreshNetwork.
Proof. unfold_methods. stable_with untouched. Qed.

Lemma lookupNetwork_resume_previousProviderConfig x p s :
  stable (fun c => previousProviderConfig c = x) (lookupNetwork_resume p s).
Proof. unfold_methods. stable_with untouched. Qed.

(** Probing and refreshing leave [providerConfig] alone. *)
Lemma refreshNetwork_providerConfig x :
  stable (fun c => providerConfig (state c) = x) refreshNetwork.
Proof. unfold_methods. stable_with untouched. Qed.

Lemma lookupNetwork_resume_providerConfig x p s :
  stable (fun c => providerConfig (state c) = x) (lookupNetwork_resume p s).
Proof. unfold_methods. stable_with untouched. Qed.

Lemma rollback_providerConfig c :
  providerConfig (state (after rollbackToPreviousProvider c)) = previousProviderConfig c.
Proof.
  unfold after. rewrite rollbackToPreviousProvider_eq.
  apply (refreshNetwork_providerConfig (previousProviderConfig c)). reflexivity.
Qed.

Lemma rollback_previousProviderConfig c :
  previousProviderConfig (after rollbackToPreviousProvider c) = previousProviderConfig c.
Proof.
  unfold after. rewrite rollbackToPreviousProvider_eq.
  apply (refreshNetwork_previousProviderConfig (previousProviderConfig c)). reflexivity.
Qed.

Lemma setProviderType_previous type c c1 a :
  setProviderType type c = (c1, Return a) ->
  previousProviderConfig c1 = providerConfig (state c).
Proof.
  intros Hrun. destruct (isInfuraProviderType type) eqn:Htype.
  - rewrite setProviderType_eq in Hrun by assumption.
    replace c1 with (after refreshNetwork
      (updated (with_providerConfig (infura_providerConfig type))
         (set_previousProviderConfig (providerConfig (state c)) c)))
      by (unfold after; rewrite Hrun; reflexivity).
    apply (refreshNetwork_previousProviderConfig (providerConfig (state c))). reflexivity.
  - destruct (setProviderType_throws type c Htype) as [e He]. congruence.
Qed.

Lemma setActiveNetwork_previous i c :
  previousProviderConfig (after (setActiveNetwork i) c) = providerConfig (state c).
Proof.
  unfold after. pose proof (obj_index_cases i (networkConfigurations (state c))) as Hcases.
  destruct (obj_index i (networkConfigurations (state c))) as [t| |] eqn:Hget.
  - rewrite (setActiveNetwork_found _ _ _ Hcases).
    apply (refreshNetwork_previousProviderConfig (providerConfig (state c))). reflexivity.
  - rewrite (setActiveNetwork_inherited _ _ Hget).
    apply (refreshNetwork_previousProviderConfig (providerConfig (state c))). reflexivity.
  - rewrite (setActiveNetwork_missing _ _ Hget). reflexivity.
Qed.

(** C2 (as the code has it). [rollbackToPreviousProvider] makes the stored
    previous configuration the active one and leaves the stored one as it
    was: [#previousProviderConfig] is not written.  A second rollback
    therefore lands on the same configuration again, and so does one taken
    after the probe of the first has been answered. *)
Theorem rollback_restores_and_keeps_previous c :
  let c1 := after rollbackToPreviousProvider c in
  providerConfig (state c1) = previousProviderConfig c /\
  previousProviderConfig c1 = previousProviderConfig c /\
  providerConfig (state (after rollbackToPreviousProvider c1)) = previousProviderConfig c /\
  previousProviderConfig (after rollbackToPreviousProvider c1) = previousProviderConfig c /\
  forall p s,
    let c2 := after (lookupNetwork_resume p s) c1 in
    providerConfig (state c2) = previousProviderConfig c /\
    previousProviderConfig c2 = previousProviderConfig c.
Proof.
  cbn zeta. repeat split.
  - apply rollback_providerConfig.
  - apply rollback_previousProviderConfig.
  - rewrite rollback_providerConfig. apply rollback_previousProviderConfig.
  - rewrite !rollback_previousProviderConfig. reflexivity.
  - apply lookupNetwork_resume_providerConfig, rollback_providerConfig.
  - apply lookupNetwork_resume_previousProviderConfig, rollback_previousProviderConfig.
Qed.

(** C7. After one switch that succeeded, by [setProviderType] or by
    [setActiveNetwork], a rollback makes the configuration that was active
    before the switch the active one again, field for field, whether or not
    the probe of the switch was answered in between. *)
Theorem rollback_after_one_switch c c1 a :
  (exists type, setProviderType type c = (c1, Return a)) \/
  (exists i, setActiveNetwork i c = (c1, Return a)) ->
  providerConfig (state (after rollbackToPreviousProvider c1)) = providerConfig (state c) /\
  forall p s,
    providerConfig (state (after rollbackToPreviousProvider (after (lookupNetwork_resume p s) c1)))
    = providerConfig (state c).
Proof.
  intros Hswitch.
  assert (Hprev : previousProviderConfig c1 = providerConfig (state c)).
  { destruct Hswitch as [[type Hrun]|[i Hrun]].
    - eapply setProviderType_previous, Hrun.
    - rewrite <- (setActiveNetwork_previous i c). unfold after. rewrite Hrun. reflexivity. }
  split.
  - rewrite rollback_providerConfig. exact Hprev.
  - intros p s. rewrite rollback_providerConfig.
    apply lookupNetwork_resume_previousProviderConfig, Hprev.
Qed.

End Configurations.

(** ** Construction *)

(** C10. The constructor merges the given partial state into the default
    state one top-level field at a time: a field that is given replaces the
    default as a whole, a field that is not given keeps the default.  So of
    a given [providerConfig] or [networkDetails] nothing is filled in from
    the default: its [chainId], for one, is the given one even when that is
    missing. *)
Theorem constructor_merges_top_level_fields s projectId c :
  new_NetworkController s projectId = Return c ->
  state c = spread defaultState s /\
  networkId (state c) = default None (opt_networkId s) /\
  networkStatus (state c) = default Unknown (opt_networkStatus s) /\
  providerConfig (state c) = default (providerConfig defaultState) (opt_providerConfig s) /\
  networkDetails (state c) = default {| EIPS := ∅ |} (opt_networkDetails s) /\
  networkConfigurations (state c) = default [] (opt_networkConfigurations s) /\
  (forall cfg, opt_providerConfig s = Some cfg ->
     providerConfig (state c) = cfg /\ pc_chainId (providerConfig (state c)) = pc_chainId cfg) /\
  (forall details, opt_networkDetails s = Some details -> networkDetails (state c) = details) /\
  previousProviderConfig c = providerConfig (state c).
Proof.
  unfold new_NetworkController. destruct (truthy projectId); [|discriminate].
  intros [= <-]. cbn. split_and!; try reflexivity.
  - intros cfg ->. split; reflexivity.
  - intros details ->. reflexivity.
Qed.

Lemma constructor_merges_top_level_fields_witness :
  exists c,
    new_NetworkController only_providerConfig (Some "infura-project-id") = Return c /\
    pc_chainId (providerConfig (state c)) = None /\
    pc_chainId (providerConfig defaultState) = Some "0x1" /\
    networkDetails (state c) = {| EIPS := ∅ |}.
Proof.
  eexists. split; [reflexivity|].
  pose proof (constructor_merges_top_level_fields only_providerConfig
                (Some "infura-project-id") _ eq_refl) as (_ & _ & _ & _ & Hd & _ & Hcfg & _).
  destruct (Hcfg _ eq_refl) as [_ Hchain].
  split; [exact Hchain|]. split; [reflexivity | exact Hd].
Defined.

(** ** Closed instances for the configurations *)

Section ConfigurationInstances.
#[local] Existing Instance sample_Dependencies.

Lemma rollback_after_one_switch_witness :
  setProviderType goerli on_mainnet = (on_goerli, Return (Suspended 1)) /\
  providerConfig (state (after rollbackToPreviousProvider on_goerli))
  = providerConfig (state on_mainnet).
Proof.
  assert (Hrun : setProviderType goerli on_mainnet
                 = (on_goerli, Return (Suspended 1))) by (vm_compute; reflexivity).
  split; [exact Hrun|].
  exact (proj1 (rollback_after_one_switch on_mainnet on_goerli (Suspended 1)
                  (or_introl (ex_intro _ goerli Hrun)))).
Defined.

(** On goerli with mainnet stored as previous, a rollback does not store
    goerli as previous, and a second rollback does not go back to goerli. *)
Lemma rollback_updates_previous_counterexample :
  let rollback := after rollbackToPreviousProvider in
  pc_type (providerConfig (state on_goerli)) = goerli /\
  pc_type (previousProviderConfig on_goerli) = mainnet /\
  previousProviderConfig (rollback on_goerli) <> providerConfig (state on_goerli) /\
  providerConfig (state (rollback (rollback on_goerli))) <> providerConfig (state on_goerli).
Proof.
  vm_compute. repeat split; discriminate.
Qed.

(** C5 at a failing input. On goerli, with mainnet stored as previous and no
    network configuration, [setActiveNetwork] throws for the unknown id, with
    the state, the proxies and the trace as they were; but the stored
    previous configuration is now goerli, and a rollback that would have
    gone to mainnet stays on goerli. *)
Theorem setActiveNetwork_unknown_id_overwrites_previous :
  let failed := after (setActiveNetwork "invalidNetworkConfigurationId") on_goerli in
  let rollback := after rollbackToPreviousProvider in
  obj_get "invalidNetworkConfigurationId" (networkConfigurations (state on_goerli)) = None /\
  (exists e, completion (setActiveNetwork "invalidNetworkConfigurationId") on_goerli
             = Throw e) /\
  state failed = state on_goerli /\
  providerProxy failed = providerProxy on_goerli /\
  blockTrackerProxy failed = blockTrackerProxy on_goerli /\
  trace failed = trace on_goerli /\
  pc_type (previousProviderConfig on_goerli) = mainnet /\
  pc_type (previousProviderConfig failed) = goerli /\
  pc_type (providerConfig (state (rollback on_goerli))) = mainnet /\
  pc_type (providerConfig (state (rollback failed))) = goerli.
Proof.
  cbn zeta. split; [reflexivity|]. split; [eexists; reflexivity|].
  vm_compute. repeat split; reflexivity.
Qed.

End ConfigurationInstances.

(** ** Suspended probes *)

Ltac unfold_api :=
  unfold initializeProvider, setProviderType, setActiveNetwork, resetConnection,
    rollbackToPreviousProvider, upsertNetworkConfiguration, removeNetworkConfiguration,
    destroy, getEIP1559Compatibility, getEIP1559Compatibility_resume,
    lookupNetwork_resume, refreshNetwork, lookupNetwork, configureProvider,
    setupInfuraProvider, setupStandardProvider, createNetworkClient, updateProvider,
    setProviderAndBlockTracker, registerProvider, getProviderAndBlockTracker,
    sendAsync, trackMetaMetricsEvent, random_v4, update.

Section Probes.
Context `{Dependencies}.

Lemma publications_snoc t o :
  publications (t ++ [o]) =
  publications t ++ match effect o with Publish e => [e] | _ => [] end.
Proof.
  unfold publications. rewrite omap_app. cbn. destruct (effect o); reflexivity.
Qed.

Lemma publications_app t l :
  publications (t ++ l) = publications t ++ publications l.
Proof. apply omap_app. Qed.

Lemma published_log e eff c :
  published e (after (log eff) c) =
  published e c + match eff with
                  | Publish e' => if decide (e' = e) then 1 else 0
                  | _ => 0
                  end.
Proof.
  unfold published. cbn. rewrite publications_snoc, count_occ_app. cbn.
  destruct eff; reflexivity.
Qed.

Lemma listener_eq q c :
  listener q c =
  (set_subscribers (filter (fun l => l ≠ q) (subscribers c))
     (set_frames (alter (fun f => {| isInfura := isInfura f; networkChanged := true |}) q (frames c)) c),
   Return tt).
Proof. reflexivity. Qed.

Lemma for_each_listener_trace x ls :
  stable (fun c => trace c = x) (for_each listener ls).
Proof. unfold listener, unsubscribe. stable_with untouched. Qed.

Lemma for_each_listener_nextFrame x ls :
  stable (fun c => nextFrame c = x) (for_each listener ls).
Proof. unfold listener, unsubscribe. stable_with untouched. Qed.

Lemma for_each_listener_state x ls :
  stable (fun c => state c = x) (for_each listener ls).
Proof. unfold listener, unsubscribe. stable_with untouched. Qed.

(** The listeners called by one publication: each sets the flag of its own
    frame and of no other. *)
Lemma for_each_listener_flags p b ls : forall c fr,
  frames c !! p = Some fr -> isInfura fr = b ->
  networkChanged fr = true \/ p ∈ ls ->
  exists fr', frames (after (for_each listener ls) c) !! p = Some fr' /\
              isInfura fr' = b /\ networkChanged fr' = true.
Proof.
  induction ls as [|q ls IH]; intros c fr Hfr Hb Hcase.
  - destruct Hcase as [Hflag|Hin]; [|inversion Hin]. exists fr. auto.
  - cbn [for_each]. rewrite after_bind.
    unfold completion, after at 2 3. rewrite listener_eq. cbn [fst snd].
    destruct (decide (q = p)) as [->|Hne].
    + eapply IH.
      * cbn. rewrite lookup_alter_eq, Hfr. reflexivity.
      * exact Hb.
      * left. reflexivity.
    + eapply IH.
      * cbn. rewrite lookup_alter_ne by exact Hne. exact Hfr.
      * exact Hb.
      * destruct Hcase as [Hflag|Hin]; [left; exact Hflag|right].
        apply elem_of_cons in Hin as [->|Hin]; [congruence|exact Hin].
Qed.

Lemma publish_networkDidChange_eq c :
  publish networkDidChange c =
  for_each listener (subscribers c)
    (set_trace (trace c ++ [observed (Publish networkDidChange) c]) c).
Proof. reflexivity. Qed.

Lemma publish_other_eq e c :
  e <> networkDidChange ->
  publish e c = (set_trace (trace c ++ [observed (Publish e) c]) c, Return tt).
Proof. destruct e; try congruence; reflexivity. Qed.

Lemma after_publish_networkDidChange c :
  after (publish networkDidChange) c =
  after (for_each listener (subscribers c))
    (set_trace (trace c ++ [observed (Publish networkDidChange) c]) c).
Proof. reflexivity. Qed.

Lemma published_publish_networkDidChange e c :
  published e (after (publish networkDidChange) c) =
  published e c + (if decide (networkDidChange = e) then 1 else 0).
Proof.
  rewrite after_publish_networkDidChange. unfold published.
  rewrite (for_each_listener_trace _ (subscribers c) _ eq_refl).
  cbn. rewrite publications_snoc, count_occ_app. reflexivity.
Qed.

Variables (p : nat) (b : bool) (n : nat).

Lemma suspended_untouched c c' :
  nextFrame c' = nextFrame c -> frames c' = frames c ->
  subscribers c' = subscribers c -> trace c' = trace c ->
  suspended p b n c -> suspended p b n c'.
Proof.
  unfold suspended, published. intros -> -> -> ->. auto.
Qed.

Lemma suspended_publish e : stable (suspended p b n) (publish e).
Proof.
  intros c (Hlt & fr & Hfr & Hb & Hcase).
  destruct (decide (e = networkDidChange)) as [->|Hne].
  - pose proof (published_publish_networkDidChange networkDidChange c) as Hpub.
    rewrite decide_True in Hpub by reflexivity.
    rewrite after_publish_networkDidChange in *.
    set (c1 := set_trace _ c) in *.
    split.
    { rewrite (for_each_listener_nextFrame _ (subscribers c) c1 eq_refl). exact Hlt. }
    destruct (for_each_listener_flags p b (subscribers c) c1 fr Hfr Hb) as (fr' & Hfr' & Hb' & Hflag).
    { destruct Hcase as [(_ & Hin & _)|(Hflag & _)]; [right; exact Hin|left; exact Hflag]. }
    exists fr'. split; [exact Hfr'|]. split; [exact Hb'|]. right. split; [exact Hflag|].
    rewrite Hpub.
    destruct Hcase as [(_ & _ & <-)|(_ & Hn)]; lia.
  - unfold after. rewrite publish_other_eq by exact Hne. cbn [fst].
    split; [exact Hlt|]. exists fr. split; [exact Hfr|]. split; [exact Hb|].
    assert (Hpub : published networkDidChange
                     (set_trace (trace c ++ [observed (Publish e) c]) c)
                   = published networkDidChange c).
    { unfold published. cbn. rewrite publications_snoc, count_occ_app. cbn.
      destruct (Event_eq_dec e networkDidChange); [contradiction|]. cbn. lia. }
    rewrite Hpub. exact Hcase.
Qed.

Lemma suspended_log eff :
  eff <> Publish networkDidChange -> stable (suspended p b n) (log eff).
Proof.
  intros Hne c (Hlt & fr & Hfr & Hb & Hcase).
  pose proof (published_log networkDidChange eff c) as Hpub.
  assert (Hzero : match eff with
                  | Publish e' => if decide (e' = networkDidChange) then 1 else 0
                  | _ => 0
                  end = 0).
  { destruct eff as [e'| | | |]; try reflexivity.
    rewrite decide_False; [reflexivity|congruence]. }
  rewrite Hzero, Nat.add_0_r in Hpub.
  split; [exact Hlt|]. exists fr. split; [exact Hfr|]. split; [exact Hb|].
  rewrite Hpub. exact Hcase.
Qed.

Lemma suspended_enter f : stable (suspended p b n) (enter f).
Proof.
  intros c (Hlt & fr & Hfr & Hb & Hcase). split; [cbn; lia|].
  exists fr. split; [|split; [exact Hb|exact Hcase]].
  cbn. rewrite lookup_insert_ne by lia. exact Hfr.
Qed.

Lemma suspended_subscribe q : stable (suspended p b n) (subscribe q).
Proof.
  intros c (Hlt & fr & Hfr & Hb & Hcase). split; [exact Hlt|].
  exists fr. split; [exact Hfr|]. split; [exact Hb|].
  destruct Hcase as [(Hflag & Hin & Hn)|Hcase]; [left|right; exact Hcase].
  split; [exact Hflag|]. split; [|exact Hn]. cbn. apply elem_of_app. left. exact Hin.
Qed.

Lemma suspended_unsubscribe q : q <> p -> stable (suspended p b n) (unsubscribe q).
Proof.
  intros Hne c (Hlt & fr & Hfr & Hb & Hcase). split; [exact Hlt|].
  exists fr. split; [exact Hfr|]. split; [exact Hb|].
  destruct Hcase as [(Hflag & Hin & Hn)|Hcase]; [left|right; exact Hcase].
  split; [exact Hflag|]. split; [|exact Hn]. cbn. apply list_elem_of_filter. split; [congruence|exact Hin].
Qed.

Lemma suspended_leave q : q <> p -> stable (suspended p b n) (leave q).
Proof.
  intros Hne c (Hlt & fr & Hfr & Hb & Hcase). split; [exact Hlt|].
  exists fr. split; [|split; [exact Hb|exact Hcase]].
  cbn. rewrite lookup_delete_ne by exact Hne. exact Hfr.
Qed.

Ltac suspended_steps :=
  repeat first
    [ apply stable_ret
    | apply stable_throw
    | apply stable_gets
    | apply suspended_publish
    | apply suspended_log; discriminate
    | apply suspended_enter
    | apply suspended_subscribe
    | apply suspended_unsubscribe; assumption
    | apply suspended_leave; assumption
    | apply stable_modify; intros ? ?;
      (eapply suspended_untouched; [..|eassumption]; repeat case_match; reflexivity)
    | apply stable_bind; [| intros ?]
    | match goal with
      | |- stable _ (match ?x with _ => _ end) => destruct x
      end
    | progress unfold_api ].

(** Every turn but the continuation of the suspended call itself keeps it
    suspended, with its flag following the publications. *)
Lemma suspended_turn t :
  other_turn p t -> forall c, suspended p b n c -> suspended p b n (turn t c).
Proof.
  destruct t; cbn [turn other_turn]; intros Hother;
    match goal with
    | |- forall c, _ -> _ (after ?m c) => change (stable (suspended p b n) m)
    end;
    unfold_api; suspended_steps.
Qed.

Lemma suspended_turns ts :
  Forall (other_turn p) ts -> forall c, suspended p b n c -> suspended p b n (turns ts c).
Proof.
  induction 1 as [|t ts Ht _ IH]; intros c Hc; [exact Hc|].
  cbn. apply IH, suspended_turn; assumption.
Qed.

(** *** The probe, step by step *)

Lemma lookupNetwork_eq c :
  lookupNetwork c =
  if ethQuery c then (lookupNetwork_started c, Return (Suspended (nextFrame c)))
  else (c, Return Done).
Proof.
  unfold lookupNetwork, bind, gets. cbn. destruct (ethQuery c) eqn:Hq; cbn; [|reflexivity].
  unfold lookupNetwork_started. cbn. rewrite <- app_assoc. reflexivity.
Qed.

Lemma lookupNetwork_suspends c c1 q :
  lookupNetwork c = (c1, Return (Suspended q)) ->
  ethQuery c = true /\ q = nextFrame c /\ c1 = lookupNetwork_started c.
Proof.
  rewrite lookupNetwork_eq. destruct (ethQuery c); intros [= <- <-]; auto.
Qed.

Lemma lookupNetwork_resume_stale c q fr s :
  frames c !! q = Some fr -> networkChanged fr = true ->
  lookupNetwork_resume q s c = (set_frames (delete q (frames c)) c, Return tt).
Proof.
  intros Hfr Hflag. unfold lookupNetwork_resume, bind, gets. cbn. rewrite Hfr.
  destruct (lookupNetwork_try (isInfura fr) s) as [[status i] compat].
  rewrite Hflag. reflexivity.
Qed.

Lemma lookupNetwork_resume_fresh c q fr s :
  frames c !! q = Some fr -> networkChanged fr = false ->
  lookupNetwork_resume q s c = (lookupNetwork_committed q fr s c, Return tt).
Proof.
  intros Hfr Hflag. unfold lookupNetwork_resume, lookupNetwork_committed, bind, gets. cbn.
  rewrite Hfr. destruct (lookupNetwork_try (isInfura fr) s) as [[status i] compat].
  rewrite Hflag. unfold lookupNetwork_notification.
  destruct (isInfura fr), status; cbn; rewrite <- ?app_assoc; reflexivity.
Qed.

Lemma lookupNetwork_resume_gone c q s :
  frames c !! q = None -> lookupNetwork_resume q s c = (c, Return tt).
Proof.
  intros Hfr. unfold lookupNetwork_resume, bind, gets. cbn. rewrite Hfr. reflexivity.
Qed.

(** A call that has just been suspended is suspended. *)
Lemma lookupNetwork_started_suspended c :
  suspended (nextFrame c) (isInfuraProviderType (pc_type (providerConfig (state c))))
    (published networkDidChange c) (lookupNetwork_started c).
Proof.
  split; [cbn; lia|]. eexists. split; [cbn; apply lookup_insert_eq|].
  split; [reflexivity|]. left. split; [reflexivity|]. split.
  - cbn. apply elem_of_app. right. apply list_elem_of_singleton. reflexivity.
  - unfold published. cbn. rewrite publications_app. cbn. rewrite app_nil_r.
    reflexivity.
Qed.

Lemma lookupNetwork_started_published e c :
  published e (lookupNetwork_started c) = published e c.
Proof.
  unfold published. cbn. rewrite publications_app. cbn. rewrite app_nil_r.
  reflexivity.
Qed.

(** The [catch] block by cases. *)
Lemma lookupNetwork_catch_cases managed error :
  lookupNetwork_catch managed error =
  if isErrorWithCode error then
    if managed && blocked_payload error then Blocked
    else if internal_code error then Unknown
    else Unavailable
  else Unknown.
Proof.
  unfold lookupNetwork_catch, blocked_payload, internal_code.
  destruct error as [[code|] [message|]|], managed; cbn; reflexivity.
Qed.

End Probes.

Section ProbeOutcome.
Context `{Dependencies}.

Lemma suspended_stale p b n c :
  suspended p b n c -> n < published networkDidChange c ->
  exists fr, frames c !! p = Some fr /\ isInfura fr = b /\ networkChanged fr = true.
Proof.
  intros (_ & fr & Hfr & Hb & [(_ & _ & Hn)|(Hflag & _)]) Hlt; [lia|].
  exists fr. auto.
Qed.

Lemma suspended_fresh p b n c :
  suspended p b n c -> published networkDidChange c = n ->
  exists fr, frames c !! p = Some fr /\ isInfura fr = b /\ networkChanged fr = false.
Proof.
  intros (_ & fr & Hfr & Hb & [(Hflag & _ & _)|(_ & Hn)]) Heq; [|lia].
  exists fr. auto.
Qed.

(** From the call of [lookupNetwork] to the moment its continuation runs. *)
Lemma suspended_until_resumed c0 c1 p ts :
  lookupNetwork c0 = (c1, Return (Suspended p)) ->
  Forall (other_turn p) ts ->
  suspended p (isInfuraProviderType (pc_type (providerConfig (state c0))))
    (published networkDidChange c1) (turns ts c1).
Proof.
  intros Hstart Hts. apply lookupNetwork_suspends in Hstart as (_ & -> & ->).
  apply suspended_turns; [exact Hts|].
  rewrite lookupNetwork_started_published. apply lookupNetwork_started_suspended.
Qed.

Lemma lookupNetwork_committed_state q fr s c :
  state (lookupNetwork_committed q fr s c) =
  lookupNetwork_commit (lookupNetwork_try (isInfura fr) s).1.2
    (lookupNetwork_try (isInfura fr) s).1.1 (lookupNetwork_try (isInfura fr) s).2 (state c).
Proof.
  unfold lookupNetwork_committed.
  destruct (lookupNetwork_try (isInfura fr) s) as [[status i] compat]. reflexivity.
Qed.

Lemma lookupNetwork_committed_published e q fr s c :
  published e (lookupNetwork_committed q fr s c) =
  published e c + (if decide (e = stateChange) then 1 else 0) +
  (if decide (lookupNetwork_notification (isInfura fr) (lookupNetwork_try (isInfura fr) s).1.1 = Some e)
   then 1 else 0).
Proof.
  unfold lookupNetwork_committed, published.
  destruct (lookupNetwork_try (isInfura fr) s) as [[status i] compat]. cbn.
  destruct (lookupNetwork_notification (isInfura fr) status) as [e'|].
  - rewrite publications_app, count_occ_app.
    destruct e, e'; cbn; repeat case_decide; try congruence; lia.
  - rewrite publications_app, count_occ_app.
    destruct e; cbn; repeat case_decide; try congruence; lia.
Qed.

(** What a probe commits, read back from the state. *)
Lemma lookupNetwork_commit_reads i status compat st :
  networkStatus (lookupNetwork_commit i status compat st) = status /\
  networkId (lookupNetwork_commit i status compat st) = i /\
  EIPS (networkDetails (lookupNetwork_commit i status compat st)) !! 1559%N = compat.
Proof.
  split; [reflexivity|]. split; [reflexivity|]. cbn.
  destruct compat; [apply lookup_insert_eq|apply lookup_delete_eq].
Qed.

(** C1. A call of [lookupNetwork] is suspended; other turns run, and
    [networkDidChange] is published during them; then the answers arrive.
    The call returns without committing anything: the state is the one it
    found, and it publishes nothing.  If the probe of the later network is
    suspended as well, the state once both have been answered, in either
    order, is what that later probe commits: status, network id and
    EIP-1559 flag are those computed from its own answers. *)
Theorem superseded_probe_is_discarded c0 c1 p ts s :
  lookupNetwork c0 = (c1, Return (Suspended p)) ->
  Forall (other_turn p) ts ->
  let c2 := turns ts c1 in
  published networkDidChange c1 < published networkDidChange c2 ->
  lookupNetwork_resume p s c2 = (set_frames (delete p (frames c2)) c2, Return tt) /\
  state (after (lookupNetwork_resume p s) c2) = state c2 /\
  trace (after (lookupNetwork_resume p s) c2) = trace c2 /\
  forall q later s',
    q <> p -> frames c2 !! q = Some later -> networkChanged later = false ->
    let outcome := lookupNetwork_try (isInfura later) s' in
    let final := state (turns [resume_lookupNetwork q s'; resume_lookupNetwork p s] c2) in
    final = state (turns [resume_lookupNetwork p s; resume_lookupNetwork q s'] c2) /\
    final = state (after (lookupNetwork_resume q s') c2) /\
    networkStatus final = outcome.1.1 /\
    networkId final = outcome.1.2 /\
    EIPS (networkDetails final) !! 1559%N = outcome.2.
Proof.
  intros Hstart Hts c2 Hpub.
  pose proof (suspended_until_resumed _ _ _ _ Hstart Hts) as Hsusp. fold c2 in Hsusp.
  destruct (suspended_stale _ _ _ _ Hsusp Hpub) as (fr & Hfr & _ & Hflag).
  pose proof (lookupNetwork_resume_stale c2 p fr s Hfr Hflag) as Hdiscard.
  split; [exact Hdiscard|]. unfold after. rewrite Hdiscard. cbn [fst].
  split; [reflexivity|]. split; [reflexivity|].
  intros q later s' Hne Hlater Hfresh. cbn zeta.
  assert (Hfirst : state (turns [resume_lookupNetwork q s'; resume_lookupNetwork p s] c2)
                   = state (after (lookupNetwork_resume q s') c2)).
  { cbn [turns fold_left turn].
    assert (Hsusp' : suspended p (isInfuraProviderType (pc_type (providerConfig (state c0))))
                       (published networkDidChange c1) (after (lookupNetwork_resume q s') c2)).
    { apply (suspended_turn p _ _ (resume_lookupNetwork q s')); [exact Hne|exact Hsusp]. }
    assert (Hpub' : published networkDidChange c1
                    < published networkDidChange (after (lookupNetwork_resume q s') c2)).
    { unfold after. rewrite (lookupNetwork_resume_fresh c2 q later s' Hlater Hfresh). cbn [fst].
      rewrite lookupNetwork_committed_published. lia. }
    destruct (suspended_stale _ _ _ _ Hsusp' Hpub') as (fr' & Hfr' & _ & Hflag').
    unfold after at 1. rewrite (lookupNetwork_resume_stale _ p fr' s Hfr' Hflag'). reflexivity. }
  rewrite Hfirst. unfold after.
  rewrite (lookupNetwork_resume_fresh c2 q later s' Hlater Hfresh). cbn [fst].
  rewrite lookupNetwork_committed_state.
  split.
  - cbn [turns fold_left turn]. unfold after. rewrite Hdiscard. cbn [fst].
    rewrite (lookupNetwork_resume_fresh _ q later s').
    + cbn [fst]. rewrite lookupNetwork_committed_state. reflexivity.
    + cbn. rewrite lookup_delete_ne by congruence. exact Hlater.
    + exact Hfresh.
  - split; [reflexivity|]. apply lookupNetwork_commit_reads.
Qed.

(** C4. A call of [lookupNetwork] is suspended, other turns run without a
    publication of [networkDidChange], and the answers arrive.  If the
    configuration the call found was an Infura one, it publishes
    [infuraIsBlocked] once and [infuraIsUnblocked] not at all when the status
    it commits is [Blocked], and [infuraIsUnblocked] once and
    [infuraIsBlocked] not at all when it is [Available].  If the
    configuration was not an Infura one, it publishes [infuraIsUnblocked]
    once and [infuraIsBlocked] not at all, whatever the answers. *)
Theorem probe_notifications c0 c1 p ts s :
  lookupNetwork c0 = (c1, Return (Suspended p)) ->
  Forall (other_turn p) ts ->
  let c2 := turns ts c1 in
  published networkDidChange c2 = published networkDidChange c1 ->
  let c3 := after (lookupNetwork_resume p s) c2 in
  let managed := isInfuraProviderType (pc_type (providerConfig (state c0))) in
  (managed = true -> networkStatus (state c3) = Blocked ->
     published infuraIsBlocked c3 = S (published infuraIsBlocked c2) /\
     published infuraIsUnblocked c3 = published infuraIsUnblocked c2) /\
  (managed = true -> networkStatus (state c3) = Available ->
     published infuraIsUnblocked c3 = S (published infuraIsUnblocked c2) /\
     published infuraIsBlocked c3 = published infuraIsBlocked c2) /\
  (managed = false ->
     published infuraIsUnblocked c3 = S (published infuraIsUnblocked c2) /\
     published infuraIsBlocked c3 = published infuraIsBlocked c2).
Proof.
  intros Hstart Hts c2 Hpub c3 managed.
  pose proof (suspended_until_resumed _ _ _ _ Hstart Hts) as Hsusp. fold c2 managed in Hsusp.
  destruct (suspended_fresh _ _ _ _ Hsusp Hpub) as (fr & Hfr & Hb & Hflag).
  assert (Hc3 : c3 = lookupNetwork_committed p fr s c2).
  { unfold c3, after. rewrite (lookupNetwork_resume_fresh c2 p fr s Hfr Hflag). reflexivity. }
  rewrite Hc3, !lookupNetwork_committed_published, lookupNetwork_committed_state.
  destruct (lookupNetwork_commit_reads (lookupNetwork_try (isInfura fr) s).1.2
              (lookupNetwork_try (isInfura fr) s).1.1 (lookupNetwork_try (isInfura fr) s).2
              (state c2)) as (-> & _).
  rewrite Hb. unfold lookupNetwork_notification.
  split_and!; intros Hm; rewrite Hm; try intros ->;
    repeat case_decide; try congruence; split; lia.
Qed.

(** C3 (as the code has it). A call of [lookupNetwork] is suspended, no
    [networkDidChange] is published meanwhile, and [Promise.all] rejects.
    If the error has a [code] property, is not the blocked payload of an
    Infura network and has not the internal code, the status committed is
    [Unavailable].  If the error has no [code] property the status committed
    is [Unknown]; that is the case of the error thrown when the answer to
    [net_version] is no network id. *)
Theorem probe_failure_status c0 c1 p ts s error :
  lookupNetwork c0 = (c1, Return (Suspended p)) ->
  Forall (other_turn p) ts ->
  let c2 := turns ts c1 in
  published networkDidChange c2 = published networkDidChange c1 ->
  Promise_all s = Rejected error ->
  let c3 := after (lookupNetwork_resume p s) c2 in
  let managed := isInfuraProviderType (pc_type (providerConfig (state c0))) in
  (isErrorWithCode error = true -> managed && blocked_payload error = false ->
   internal_code error = false -> networkStatus (state c3) = Unavailable) /\
  (isErrorWithCode error = false -> networkStatus (state c3) = Unknown) /\
  (forall v, netVersion s = Resolved v -> convertNetworkId v = None ->
             first s = net_version -> networkStatus (state c3) = Unknown).
Proof.
  intros Hstart Hts c2 Hpub Hall c3 managed.
  pose proof (suspended_until_resumed _ _ _ _ Hstart Hts) as Hsusp. fold c2 managed in Hsusp.
  destruct (suspended_fresh _ _ _ _ Hsusp Hpub) as (fr & Hfr & Hb & Hflag).
  assert (Hstatus : networkStatus (state c3) = lookupNetwork_catch managed error).
  { unfold c3, after. rewrite (lookupNetwork_resume_fresh c2 p fr s Hfr Hflag). cbn [fst].
    rewrite lookupNetwork_committed_state. cbn [networkStatus lookupNetwork_commit].
    unfold lookupNetwork_try. rewrite Hall, Hb. reflexivity. }
  rewrite Hstatus, lookupNetwork_catch_cases. split_and!.
  - intros -> -> ->. reflexivity.
  - intros ->. reflexivity.
  - intros v Hv Hconv Hfirst.
    assert (Herr : error = Error "Cannot parse as a valid network ID").
    { unfold Promise_all, getNetworkId_settle in Hall. rewrite Hv, Hconv, Hfirst in Hall.
      destruct (determineEIP1559Compatibility_settle (latestBlock s)); congruence. }
    rewrite Herr. reflexivity.
Qed.

End ProbeOutcome.

(** ** Closed instances for the probe *)

Section ProbeInstances.
#[local] Existing Instance sample_Dependencies.

Lemma probing_mainnet_suspended :
  lookupNetwork on_mainnet = (probing_mainnet, Return (Suspended 1)).
Proof. vm_compute. reflexivity. Qed.

Lemma switch_is_other_turn : Forall (other_turn 1) [call_setProviderType goerli].
Proof. repeat constructor. Qed.

Lemma no_switch_meanwhile :
  published networkDidChange (turns [] probing_mainnet) = published networkDidChange probing_mainnet.
Proof. vm_compute. reflexivity. Qed.

Lemma superseded_probe_is_discarded_witness :
  let c2 := turns [call_setProviderType goerli] probing_mainnet in
  lookupNetwork on_mainnet = (probing_mainnet, Return (Suspended 1)) /\
  published networkDidChange probing_mainnet < published networkDidChange c2 /\
  state (after (lookupNetwork_resume 1 good_settlement) c2) = state c2.
Proof.
  cbn zeta.
  assert (Hpub : published networkDidChange probing_mainnet
                 < published networkDidChange (turns [call_setProviderType goerli] probing_mainnet))
    by (vm_compute; lia).
  split; [exact probing_mainnet_suspended|]. split; [exact Hpub|].
  exact (proj1 (proj2 (superseded_probe_is_discarded on_mainnet probing_mainnet 1
                         [call_setProviderType goerli] good_settlement
                         probing_mainnet_suspended
                         switch_is_other_turn Hpub))).
Defined.

Lemma probe_notifications_witness :
  let c3 := after (lookupNetwork_resume 1 good_settlement) (turns [] probing_mainnet) in
  lookupNetwork on_mainnet = (probing_mainnet, Return (Suspended 1)) /\
  published infuraIsUnblocked c3 = S (published infuraIsUnblocked (turns [] probing_mainnet)) /\
  published infuraIsBlocked c3 = published infuraIsBlocked (turns [] probing_mainnet).
Proof.
  cbn zeta. split; [exact probing_mainnet_suspended|].
  refine (proj1 (proj2 (probe_notifications on_mainnet probing_mainnet 1 [] good_settlement
                          probing_mainnet_suspended (@List.Forall_nil Turn (other_turn 1)) no_switch_meanwhile)) _ _).
  - vm_compute. reflexivity.
  - vm_compute. reflexivity.
Defined.

Lemma probe_failure_status_witness :
  let c3 := after (lookupNetwork_resume 1 limit_exceeded_settlement) (turns [] probing_mainnet) in
  lookupNetwork on_mainnet = (probing_mainnet, Return (Suspended 1)) /\
  networkStatus (state c3) = Unavailable.
Proof.
  cbn zeta. split; [exact probing_mainnet_suspended|].
  refine (proj1 (probe_failure_status on_mainnet probing_mainnet 1 [] limit_exceeded_settlement
                   (ErrorObject (Some (CodeNumber (-32005))) (Some "limit exceeded"))
                   probing_mainnet_suspended (@List.Forall_nil Turn (other_turn 1)) no_switch_meanwhile _) _ _ _);
    vm_compute; reflexivity.
Defined.

(** The answer to [net_version] is no network id: the error is neither the
    blocked payload nor an internal error, and the status committed is
    [Unknown], not [Unavailable]. *)
Lemma malformed_network_id_counterexample :
  exists error,
    Promise_all invalid_id_settlement = Rejected error /\
    blocked_payload error = false /\
    internal_code error = false /\
    networkStatus (state (after (lookupNetwork_resume 1 invalid_id_settlement) probing_mainnet))
    = Unknown /\
    networkStatus (state (after (lookupNetwork_resume 1 invalid_id_settlement) probing_mainnet))
    <> Unavailable.
Proof.
  eexists. split; [vm_compute; reflexivity|].
  vm_compute. repeat split; discriminate.
Qed.

End ProbeInstances.

(** ** EIP-1559 *)

Section EIP1559.
Context `{Dependencies}.

Lemma requests_snoc c o :
  requests (set_trace (trace c ++ [o]) c) =
  requests c ++ match effect o with SendAsync m _ => [m] | _ => [] end.
Proof.
  unfold requests. cbn. rewrite omap_app. cbn. destruct (effect o); reflexivity.
Qed.

(** C9. With the EIP-1559 flag in the state, [getEIP1559Compatibility]
    resolves with it and the controller is as it was: no request, no state
    change.  Without the flag and without a provider it resolves with
    [false], the controller as it was.  Without the flag and with a provider
    it sends the one request for the latest block and waits; once the block
    is there it writes whether the block has a base fee to the state, that
    field and no other, and resolves with it, and the next call resolves
    with the stored flag without a request. *)
Theorem getEIP1559Compatibility_cached_or_fetched c :
  (forall b, EIPS (networkDetails (state c)) !! 1559%N = Some b ->
     getEIP1559Compatibility c = (c, Return (Some b))) /\
  (EIPS (networkDetails (state c)) !! 1559%N = None -> ethQuery c = false ->
     getEIP1559Compatibility c = (c, Return (Some false))) /\
  (EIPS (networkDetails (state c)) !! 1559%N = None -> ethQuery c = true ->
     let c1 := after getEIP1559Compatibility c in
     completion getEIP1559Compatibility c = Return None /\
     state c1 = state c /\
     requests c1 = requests c ++ [eth_getBlockByNumber] /\
     publications (trace c1) = publications (trace c)) /\
  (forall latestBlock,
     let b := has_baseFeePerGas latestBlock in
     let c2 := after (getEIP1559Compatibility_resume (Resolved latestBlock)) c in
     completion (getEIP1559Compatibility_resume (Resolved latestBlock)) c = Return b /\
     state c2 = with_EIP1559 b (state c) /\
     EIPS (networkDetails (state c2)) !! 1559%N = Some b /\
     requests c2 = requests c /\
     getEIP1559Compatibility c2 = (c2, Return (Some b))).
Proof.
  split_and!.
  - intros b Hb. unfold getEIP1559Compatibility, bind, gets. cbn. rewrite Hb. reflexivity.
  - intros Hnone Hq. unfold getEIP1559Compatibility, bind, gets. cbn. rewrite Hnone, Hq.
    reflexivity.
  - intros Hnone Hq. cbn zeta.
    assert (Heq : getEIP1559Compatibility c =
                  (set_trace (trace c ++ [observed (SendAsync eth_getBlockByNumber (providerProxy c)) c]) c, Return None)).
    { unfold getEIP1559Compatibility, bind, gets. cbn. rewrite Hnone, Hq. reflexivity. }
    unfold after, completion. rewrite Heq. cbn [fst snd].
    split_and!; try reflexivity.
    + apply requests_snoc.
    + cbn. rewrite publications_snoc. cbn. apply app_nil_r.
  - intros latestBlock. cbn zeta.
    assert (Heq : getEIP1559Compatibility_resume (Resolved latestBlock) c =
                  (updated (with_EIP1559 (has_baseFeePerGas latestBlock)) c,
                   Return (has_baseFeePerGas latestBlock))) by reflexivity.
    unfold after, completion. rewrite Heq. cbn [fst snd].
    assert (Hflag : EIPS (networkDetails (state (updated (with_EIP1559 (has_baseFeePerGas latestBlock)) c)))
                    !! 1559%N = Some (has_baseFeePerGas latestBlock)).
    { cbn. apply lookup_insert_eq. }
    split_and!; try reflexivity.
    + exact Hflag.
    + unfold requests, updated. cbn. rewrite omap_app. cbn. apply app_nil_r.
    + unfold getEIP1559Compatibility, bind, gets. cbn [fst snd]. cbn beta. rewrite Hflag.
      reflexivity.
Qed.

(** A request that fails makes the call reject with the error of the
    request and leaves the controller as it was. *)
Lemma getEIP1559Compatibility_resume_rejected error c :
  getEIP1559Compatibility_resume (Rejected error) c = (c, Throw error).
Proof. reflexivity. Qed.

End EIP1559.

Section EIP1559Instances.
#[local] Existing Instance sample_Dependencies.

Lemma getEIP1559Compatibility_cached_or_fetched_witness :
  EIPS (networkDetails (state on_mainnet)) !! 1559%N = Some true /\
  getEIP1559Compatibility on_mainnet = (on_mainnet, Return (Some true)) /\
  EIPS (networkDetails (state fresh_controller)) !! 1559%N = None /\
  ethQuery fresh_controller = false /\
  getEIP1559Compatibility fresh_controller = (fresh_controller, Return (Some false)) /\
  EIPS (networkDetails (state initialized)) !! 1559%N = None /\
  ethQuery initialized = true /\
  requests (after getEIP1559Compatibility initialized)
  = requests initialized ++ [eth_getBlockByNumber].
Proof.
  assert (H1 : EIPS (networkDetails (state on_mainnet)) !! 1559%N = Some true)
    by (vm_compute; reflexivity).
  assert (H2 : EIPS (networkDetails (state fresh_controller)) !! 1559%N = None)
    by (vm_compute; reflexivity).
  assert (H3 : ethQuery fresh_controller = false) by (vm_compute; reflexivity).
  assert (H4 : EIPS (networkDetails (state initialized)) !! 1559%N = None)
    by (vm_compute; reflexivity).
  assert (H5 : ethQuery initialized = true) by (vm_compute; reflexivity).
  split; [exact H1|].
  split; [exact (proj1 (getEIP1559Compatibility_cached_or_fetched on_mainnet) true H1)|].
  split; [exact H2|]. split; [exact H3|].
  split; [exact (proj1 (proj2 (getEIP1559Compatibility_cached_or_fetched fresh_controller)) H2 H3)|].
  split; [exact H4|]. split; [exact H5|].
  exact (proj1 (proj2 (proj2 (proj1 (proj2 (proj2
           (getEIP1559Compatibility_cached_or_fetched initialized))) H4 H5)))).
Defined.

End EIP1559Instances.

(** ** The refresh sequence *)

Section Refresh.
Context `{Dependencies}.

Lemma for_each_listener_apart ls c :
  apart_from_listeners c (after (for_each listener ls) c).
Proof.
  revert c. induction ls as [|q ls IH]; intros c.
  - repeat split.
  - cbn [for_each]. rewrite after_bind. unfold completion, after at 2 3.
    rewrite listener_eq. cbn [fst snd].
    destruct (IH (set_subscribers (filter (fun l => l ≠ q) (subscribers c))
                    (set_frames (alter (fun f => {| isInfura := isInfura f; networkChanged := true |})
                                   q (frames c)) c)))
      as (? & ? & ? & ? & ? & ? & ? & ? & ?).
    repeat split; assumption.
Qed.

(** The listeners called by one publication all unsubscribe. *)
Lemma for_each_listener_subscribers ls : forall c,
  subscribers (after (for_each listener ls) c) =
  filter (fun l => l ∉ ls) (subscribers c).
Proof.
  induction ls as [|q ls IH]; intros c.
  - cbn [for_each]. change (after (ret tt) c) with c.
    induction (subscribers c) as [|x xs IHx]; [reflexivity|].
    rewrite filter_cons_True by apply not_elem_of_nil. f_equal. exact IHx.
  - cbn [for_each]. rewrite after_bind. unfold completion, after at 2 3.
    rewrite listener_eq. cbn [fst snd]. rewrite IH. cbn [subscribers set_subscribers set_frames].
    rewrite list_filter_filter. apply list_filter_iff. intros x. rewrite not_elem_of_cons. tauto.
Qed.

Lemma for_each_listener_frames_other ls q : forall c,
  q ∉ ls -> frames (after (for_each listener ls) c) !! q = frames c !! q.
Proof.
  induction ls as [|l ls IH]; intros c Hq; [reflexivity|].
  apply not_elem_of_cons in Hq as [Hne Hq].
  cbn [for_each]. rewrite after_bind. unfold completion, after at 2 3.
  rewrite listener_eq. cbn [fst snd]. rewrite IH by exact Hq.
  cbn. apply lookup_alter_ne. congruence.
Qed.

Lemma configureProvider_installs cfg c client :
  network_client (infuraProjectId c) cfg = Some client ->
  configureProvider (pc_type cfg) (pc_rpcUrl cfg) (pc_chainId cfg) c = (installed client c, Return tt).
Proof.
  unfold network_client. destruct c as [st q pid prev pp bt subs fr nf rc tr].
  destruct (pc_type cfg), (pc_chainId cfg), (pc_rpcUrl cfg); intros [= <-];
    destruct pp, bt; reflexivity.
Qed.

Lemma configureProvider_throws cfg c :
  network_client (infuraProjectId c) cfg = None ->
  exists e, configureProvider (pc_type cfg) (pc_rpcUrl cfg) (pc_chainId cfg) c = (c, Throw e).
Proof.
  unfold network_client.
  destruct (pc_type cfg), (pc_chainId cfg), (pc_rpcUrl cfg); intros [=]; eexists; reflexivity.
Qed.

(** The controller between [networkWillChange] and the set-up of the
    provider. *)
Lemma refreshNetwork_eq c :
  let c2 := updated refreshNetwork_reset
              (set_trace (trace c ++ [observed (Publish networkWillChange) c]) c) in
  match network_client (infuraProjectId c) (providerConfig (state c)) with
  | Some client =>
      refreshNetwork c = lookupNetwork (after (publish networkDidChange) (installed client c2))
  | None => exists e, refreshNetwork c = (c2, Throw e)
  end.
Proof.
  cbn zeta. set (c2 := updated _ _).
  assert (Hhead : refreshNetwork c =
                  (configureProvider (pc_type (providerConfig (state c)))
                     (pc_rpcUrl (providerConfig (state c))) (pc_chainId (providerConfig (state c))) ;;
                   publish networkDidChange ;; lookupNetwork) c2) by reflexivity.
  rewrite Hhead.
  destruct (network_client (infuraProjectId c) (providerConfig (state c))) as [client|] eqn:Hclient.
  - unfold bind at 1.
    rewrite (configureProvider_installs (providerConfig (state c)) c2 client Hclient).
    unfold bind, after. destruct (publish networkDidChange (installed client c2)) as [c4 [[]|e]] eqn:Hp.
    + reflexivity.
    + exfalso. revert Hp. rewrite publish_networkDidChange_eq.
      generalize (set_trace (trace (installed client c2) ++
                    [observed (Publish networkDidChange) (installed client c2)])
                    (installed client c2)).
      induction (subscribers (installed client c2)) as [|l ls IH]; intros c5; [discriminate|].
      cbn [for_each]. unfold bind. rewrite listener_eq. apply IH.
  - destruct (configureProvider_throws (providerConfig (state c)) c2 Hclient) as [e He].
    exists e. unfold bind at 1. rewrite He. reflexivity.
Qed.

Lemma filter_out_all (ls : list nat) : filter (fun l => l ∉ ls) ls = [].
Proof.
  assert (Hsub : forall xs : list nat, (forall x, x ∈ xs -> x ∈ ls) -> filter (fun l => l ∉ ls) xs = []).
  { induction xs as [|x xs IH]; intros Hin; [reflexivity|].
    rewrite filter_cons_False.
    - apply IH. intros y Hy. apply Hin. right. exact Hy.
    - intros Hnot. apply Hnot, Hin. left. }
  apply Hsub. auto.
Qed.








End Refresh.

Section RefreshInstances.
#[local] Existing Instance sample_Dependencies.



End RefreshInstances.

(** ** Network configurations *)

Section Registry.
Context `{Dependencies}.

Lemma obj_get_set_eq {V} k (v : V) o : obj_get k (obj_set k v o) = Some v.
Proof.
  induction o as [|[k' v'] o IH]; cbn.
  - rewrite String.eqb_refl. reflexivity.
  - destruct (String.eqb k' k) eqn:Hk; cbn.
    + rewrite String.eqb_refl. reflexivity.
    + rewrite Hk. exact IH.
Qed.



Lemma obj_set_absent {V} k (v : V) o :
  obj_get k o = None -> obj_set k v o = o ++ [(k, v)].
Proof.
  induction o as [|[k' v'] o IH]; cbn; intros Hnone; [reflexivity|].
  destruct (String.eqb k' k); [discriminate|]. rewrite IH by exact Hnone. reflexivity.
Qed.


Lemma obj_get_Some_elem_of {V} k (v : V) o : obj_get k o = Some v -> (k, v) ∈ o.
Proof.
  induction o as [|[k' v'] o IH]; cbn; [discriminate|].
  destruct (String.eqb k' k) eqn:Hk.
  - intros [= ->]. apply String.eqb_eq in Hk as ->. left.
  - intros Hget. right. apply IH, Hget.
Qed.

Lemma obj_get_delete_eq {V} k (o : list (string * V)) : obj_get k (obj_delete k o) = None.
Proof.
  induction o as [|[k' v'] o IH]; cbn; [reflexivity|].
  destruct (String.eqb k' k) eqn:Hk; [exact IH|]. cbn. rewrite Hk. exact IH.
Qed.

Lemma obj_get_delete_ne {V} k k' (o : list (string * V)) :
  k' <> k -> obj_get k' (obj_delete k o) = obj_get k' o.
Proof.
  intros Hne. induction o as [|[k0 v0] o IH]; cbn; [reflexivity|].
  destruct (String.eqb k0 k) eqn:Hk; cbn.
  - apply String.eqb_eq in Hk as ->.
    destruct (String.eqb k k') eqn:Hk'; [|exact IH].
    apply String.eqb_eq in Hk'. congruence.
  - destruct (String.eqb k0 k'); [reflexivity|exact IH].
Qed.

Lemma registry_wf_elem_of r k e :
  registry_wf r = true -> (k, e) ∈ r -> nc_id e = k /\ k <> "".
Proof.
  unfold registry_wf. rewrite forallb_forall. intros Hwf Hin.
  specialize (Hwf (k, e)). cbn in Hwf.
  destruct (andb_prop _ _ (Hwf (proj1 (list_elem_of_In _ _) Hin))) as [Hid Hne].
  apply String.eqb_eq in Hid. apply negb_true_iff, String.eqb_neq in Hne. auto.
Qed.

(** The enumeration holds the own properties, each once, whatever the
    order. *)
Lemma elem_of_own_properties {V} (kv : string * V) o : kv ∈ own_properties o <-> kv ∈ o.
Proof.
  unfold own_properties. rewrite elem_of_app, list_elem_of_filter. split.
  - intros [Hin|[_ Hin]]; [|exact Hin].
    apply list_elem_of_In, in_map_iff in Hin as ([n kv'] & Heq & Hin). cbn in Heq. subst kv'.
    apply list_elem_of_In in Hin. rewrite merge_sort_Permutation in Hin.
    apply list_elem_of_omap in Hin as (kv' & Hin & Heq).
    destruct (array_index kv'.1); cbn in Heq; [|discriminate]. injection Heq as _ <-. exact Hin.
  - intros Hin. destruct (array_index kv.1) as [n|] eqn:Hidx; [left|right; auto].
    apply list_elem_of_In, in_map_iff. exists (n, kv). split; [reflexivity|].
    apply list_elem_of_In. rewrite merge_sort_Permutation. apply list_elem_of_omap.
    exists kv. rewrite Hidx. auto.
Qed.

Lemma elem_of_Object_values {V} (v : V) o : v ∈ Object_values o <-> exists k, (k, v) ∈ o.
Proof.
  unfold Object_values. rewrite list_elem_of_In, in_map_iff. split.
  - intros ([k v'] & <- & Hin). exists k. apply elem_of_own_properties, list_elem_of_In, Hin.
  - intros [k Hin]. exists (k, v). split; [reflexivity|].
    apply list_elem_of_In, elem_of_own_properties, Hin.
Qed.

Lemma find_Object_values (f : NetworkConfiguration -> bool) (r : Registry) e :
  find f (Object_values r) = Some e -> f e = true /\ exists k, (k, e) ∈ r.
Proof.
  intros Hfind. apply find_some in Hfind as [Hin Hf].
  split; [exact Hf|]. apply elem_of_Object_values, list_elem_of_In, Hin.
Qed.

(** *** upsertNetworkConfiguration, step by step *)

Lemma setActiveNetwork_networkConfigurations x i :
  stable (fun c => networkConfigurations (state c) = x) (setActiveNetwork i).
Proof. unfold_methods. stable_with untouched. Qed.



(** A call that passes the checks: the id it resolves with and the
    controller before [setActiveNetwork], if that is called at all. *)
Lemma upsertNetworkConfiguration_run input options c c' i a rpcUrl ticker ref src :
  upsertNetworkConfiguration input options c = (c', Return (i, a)) ->
  truthy (in_rpcUrl input) = Some rpcUrl ->
  truthy (in_ticker input) = Some ticker ->
  truthy (referrer options) = Some ref ->
  truthy (source options) = Some src ->
  let old := networkConfigurations (state c) in
  let oldId := truthy (nc_id <$> find (sameRpcUrl rpcUrl) (Object_values old)) in
  let stored := updated (with_networkConfigurations (obj_set i (upserted input rpcUrl ticker i) old)) in
  let c3 := match oldId with
            | Some _ => stored c
            | None =>
                let c2 := stored (set_randomCalls (S (randomCalls c)) c) in
                set_trace (trace c2 ++ [observed (TrackMetaMetricsEvent (network_added input ticker ref src)) c2]) c2
            end in
  i = default (random (randomCalls c)) oldId /\
  c' = (if setActive options then after (setActiveNetwork i) c3 else c3).
Proof.
  intros Hrun Hurl Hticker Href Hsrc. cbn zeta.
  unfold upsertNetworkConfiguration in Hrun. rewrite Hurl, Hticker, Href, Hsrc in Hrun.
  destruct (isStrictHexString (in_chainId input)); [|discriminate Hrun].
  destruct (isSafeChainId (in_chainId input)); [|discriminate Hrun].
  cbn [negb] in Hrun.
  destruct (match URL_error rpcUrl with Some m => includes "Invalid URL" m | None => false end);
    [discriminate Hrun|].
  unfold bind at 1 in Hrun. unfold gets at 1 in Hrun.
  destruct (truthy (nc_id <$> find (sameRpcUrl rpcUrl)
                      (Object_values (networkConfigurations (state c))))) as [k|].
  - unfold bind at 1 in Hrun. unfold ret at 1 in Hrun.
    unfold bind at 1 in Hrun. rewrite update_eq in Hrun.
    unfold bind at 1 in Hrun. unfold ret at 1 in Hrun.
    unfold bind at 1 in Hrun.
    destruct (setActive options).
    + destruct (setActiveNetwork k _) as [c4 [a4|e]] eqn:Hset; [|discriminate Hrun].
      injection Hrun as <- <- <-. split; [reflexivity|].
      unfold after, upserted, network_added in *. cbn [default]. rewrite Hset. reflexivity.
    + injection Hrun as <- <- <-. split; reflexivity.
  - unfold bind at 1 in Hrun.
    change (random_v4 c) with (set_randomCalls (S (randomCalls c)) c, Return (random (randomCalls c))) in Hrun.
    unfold bind at 1 in Hrun. rewrite update_eq in Hrun.
    unfold bind at 1 in Hrun.
    change (trackMetaMetricsEvent ?p ?c0) with
      (set_trace (trace c0 ++ [observed (TrackMetaMetricsEvent p) c0]) c0, Return tt) in Hrun.
    unfold bind at 1 in Hrun.
    destruct (setActive options).
    + destruct (setActiveNetwork (random (randomCalls c)) _) as [c4 [a4|e]] eqn:Hset; [|discriminate Hrun].
      injection Hrun as <- <- <-. split; [reflexivity|].
      unfold after, upserted, network_added in *. cbn [default]. rewrite Hset. reflexivity.
    + injection Hrun as <- <- <-. split; reflexivity.
Qed.

Lemma truthy_Some k : k <> "" -> truthy (Some k) = Some k.
Proof. destruct k; [congruence|reflexivity]. Qed.

Lemma sameRpcUrl_true rpcUrl e :
  sameRpcUrl rpcUrl e = true <->
  exists u, nc_rpcUrl e = Some u /\ toLowerCase u = toLowerCase rpcUrl.
Proof.
  unfold sameRpcUrl. destruct (nc_rpcUrl e) as [u|].
  - rewrite String.eqb_eq. split; [eauto|]. intros (u' & [= <-] & Heq). exact Heq.
  - split; [discriminate|]. intros (u & [=] & _).
Qed.



(** The record stays well stored: under ids that are the entries' own and
    not empty. *)
Lemma obj_set_registry_wf i e r :
  registry_wf r = true -> nc_id e = i -> i <> "" -> registry_wf (obj_set i e r) = true.
Proof.
  intros Hwf Hid Hne. induction r as [|[k v] r IH]; cbn.
  - rewrite Hid, String.eqb_refl. apply String.eqb_neq in Hne. rewrite Hne. reflexivity.
  - cbn in Hwf. apply andb_prop in Hwf as [Hkv Hr]. destruct (String.eqb k i) eqn:Hk; cbn.
    + rewrite Hid, String.eqb_refl. apply String.eqb_neq in Hne. rewrite Hne. exact Hr.
    + rewrite Hkv. exact (IH Hr).
Qed.

End Registry.

Section RegistryInstances.
#[local] Existing Instance sample_Dependencies.

Lemma with_one_network_registry :
  networkConfigurations (state with_one_network) =
  [("uuid-I", upserted first_definition "https://x" "ETH" "uuid-I")].
Proof. vm_compute. reflexivity. Qed.






End RegistryInstances.

(** * Further properties of the controller *)

(** ** Switching *)

Section Switching.
Context `{Dependencies}.

(** [#refreshNetwork] when the provider can be set up: the controller on
    which the probe starts. *)
Lemma refreshNetwork_run c client :
  network_client (infuraProjectId c) (providerConfig (state c)) = Some client ->
  exists c4,
    refreshNetwork c = (lookupNetwork_started c4, Return (Suspended (nextFrame c))) /\
    state c4 = refreshNetwork_reset (state c) /\
    ethQuery c4 = true /\
    previousProviderConfig c4 = previousProviderConfig c /\
    providerProxy c4 = Some client /\ blockTrackerProxy c4 = Some client /\
    nextFrame c4 = nextFrame c /\ randomCalls c4 = randomCalls c /\
    subscribers c4 = [] /\
    trace c4 = trace c ++
      [saw (state c) (providerProxy c) (blockTrackerProxy c) (Publish networkWillChange);
       saw (refreshNetwork_reset (state c)) (providerProxy c) (blockTrackerProxy c)
         (Publish stateChange);
       saw (refreshNetwork_reset (state c)) (providerProxy c) (blockTrackerProxy c)
         (CreateNetworkClient client);
       saw (refreshNetwork_reset (state c)) (Some client) (Some client)
         (Publish networkDidChange)].
Proof.
  intros Hclient. pose proof (refreshNetwork_eq c) as Heq. cbn zeta in Heq.
  rewrite Hclient in Heq.
  set (c2 := updated refreshNetwork_reset _) in Heq.
  set (c3 := installed client c2) in Heq.
  set (c4 := after (publish networkDidChange) c3) in Heq.
  assert (Hc4 : c4 = after (for_each listener (subscribers c))
                       (set_trace (trace c3 ++ [observed (Publish networkDidChange) c3]) c3))
    by reflexivity.
  destruct (for_each_listener_apart (subscribers c)
              (set_trace (trace c3 ++ [observed (Publish networkDidChange) c3]) c3))
    as (Hst & Hq & _ & Hprev & Hpp & Hbt & Hnf & Hrc & Htr).
  rewrite <- Hc4 in Hst, Hq, Hprev, Hpp, Hbt, Hnf, Hrc, Htr.
  cbn in Hst, Hq, Hprev, Hpp, Hbt, Hnf, Hrc, Htr.
  exists c4. rewrite lookupNetwork_eq, Hq, Hnf in Heq.
  split; [exact Heq|]. split; [exact Hst|]. split; [exact Hq|]. split; [exact Hprev|].
  split; [exact Hpp|]. split; [exact Hbt|]. split; [exact Hnf|]. split; [exact Hrc|].
  split.
  - rewrite Hc4, for_each_listener_subscribers. cbn. apply filter_out_all.
  - rewrite Htr. rewrite <- !app_assoc. reflexivity.
Qed.

(** X1. [setProviderType] turns down everything that is not an Infura
    network, [rpc] included, by a failed assertion, before it writes
    anything: not even the stored previous configuration changes. *)
Theorem setProviderType_rejects_other_types type c :
  isInfuraProviderType type = false ->
  exists message,
    setProviderType type c = (c, Throw (AssertionError message)).
Proof.
  destruct type; try discriminate; intros _; eexists; reflexivity.
Qed.

(** X2. [setProviderType] for an Infura network always goes through: the
    active configuration becomes the built-in one of that network, with
    type, chain id and explorer from the tables, the ticker from the table or
    ETH when the table has none, and without RPC URL, nickname or
    configuration id, whatever the configuration was before; that one is
    stored as previous; both proxies point to the Infura client of the
    network; and the probe is suspended. *)
Theorem setProviderType_switches type c :
  isInfuraProviderType type = true ->
  let c' := after (setProviderType type) c in
  let cfg := providerConfig (state c') in
  completion (setProviderType type) c = Return (Suspended (nextFrame c)) /\
  pc_type cfg = type /\ pc_chainId cfg = ChainId type /\
  pc_rpcPrefs cfg = BUILT_IN_NETWORKS_rpcPrefs type /\
  pc_rpcUrl cfg = None /\ pc_nickname cfg = None /\ pc_id cfg = None /\
  (forall t, NetworksTicker type = Some t -> t <> "" -> pc_ticker cfg = Some t) /\
  (NetworksTicker type = None \/ NetworksTicker type = Some "" -> pc_ticker cfg = Some "ETH") /\
  previousProviderConfig c' = providerConfig (state c) /\
  providerProxy c' = Some (InfuraClient type (infuraProjectId c)) /\
  blockTrackerProxy c' = Some (InfuraClient type (infuraProjectId c)) /\
  networkStatus (state c') = Unknown.
Proof.
  intros Htype. cbn zeta.
  set (c1 := updated (with_providerConfig (infura_providerConfig type))
               (set_previousProviderConfig (providerConfig (state c)) c)).
  assert (Hclient : network_client (infuraProjectId c1) (providerConfig (state c1))
                    = Some (InfuraClient type (infuraProjectId c))).
  { destruct type; try discriminate; reflexivity. }
  destruct (refreshNetwork_run c1 _ Hclient)
    as (c4 & Hrun & Hst & _ & Hprev & Hpp & Hbt & _).
  unfold after, completion. rewrite (setProviderType_eq type c Htype). fold c1.
  rewrite Hrun. cbn [fst snd]. cbn [state lookupNetwork_started set_trace set_subscribers
    set_nextFrame set_frames previousProviderConfig providerProxy blockTrackerProxy].
  rewrite Hst, Hprev, Hpp, Hbt. cbn.
  split_and!; try reflexivity.
  - intros t -> Hne. destruct t; [congruence|reflexivity].
  - intros [->| ->]; reflexivity.
Qed.

(** X3. [setActiveNetwork] with a stored configuration that lacks a chain id
    or an RPC URL throws, the chain id being looked at first.  The only
    effects of the call are three publications, of the state with the new
    active configuration, of [networkWillChange] and of the reset state: no
    client is created, no request is sent, the proxies keep their targets
    and [networkDidChange] is not published; but the active configuration
    already is the incomplete one, the status is reset, and the
    configuration before the call is stored as previous. *)
Theorem setActiveNetwork_incomplete_configuration i c target :
  obj_get i (networkConfigurations (state c)) = Some target ->
  nc_chainId target = None \/ nc_rpcUrl target = None ->
  let c' := after (setActiveNetwork i) c in
  completion (setActiveNetwork i) c =
    Throw (Error match nc_chainId target with
                 | Some _ => "rpcUrl must be provided for custom RPC endpoints"
                 | None => "chainId must be provided for custom RPC endpoints"
                 end) /\
  providerProxy c' = providerProxy c /\ blockTrackerProxy c' = blockTrackerProxy c /\
  ethQuery c' = ethQuery c /\
  frames c' = frames c /\ subscribers c' = subscribers c /\
  publications (trace c') =
    publications (trace c) ++ [stateChange; networkWillChange; stateChange] /\
  map effect (trace c') =
    map effect (trace c) ++ [Publish stateChange; Publish networkWillChange; Publish stateChange] /\
  requests c' = requests c /\
  providerConfig (state c') = custom_providerConfig target /\
  previousProviderConfig c' = providerConfig (state c) /\
  networkStatus (state c') = Unknown /\ networkId (state c') = None.
Proof.
  intros Hget Hmissing. cbn zeta.
  assert (Heq : setActiveNetwork i c =
                (updated refreshNetwork_reset
                   (set_trace
                      (trace (updated (with_providerConfig (custom_providerConfig target))
                                (set_previousProviderConfig (providerConfig (state c)) c)) ++
                       [observed (Publish networkWillChange)
                          (updated (with_providerConfig (custom_providerConfig target))
                             (set_previousProviderConfig (providerConfig (state c)) c))])
                      (updated (with_providerConfig (custom_providerConfig target))
                         (set_previousProviderConfig (providerConfig (state c)) c))),
                 Throw (Error match nc_chainId target with
                              | Some _ => "rpcUrl must be provided for custom RPC endpoints"
                              | None => "chainId must be provided for custom RPC endpoints"
                              end))).
  { rewrite (setActiveNetwork_found i c target Hget).
    destruct (nc_chainId target) as [chain|] eqn:Hchain, (nc_rpcUrl target) as [url|] eqn:Hurl;
      try (destruct Hmissing; discriminate);
      unfold refreshNetwork, bind, gets, configureProvider, custom_providerConfig; cbn;
      rewrite ?Hchain, ?Hurl; reflexivity. }
  unfold after, completion. rewrite Heq. cbn [fst snd].
  split_and!; try reflexivity.
  - cbn. rewrite !publications_app. cbn. rewrite <- !app_assoc. reflexivity.
  - cbn. rewrite !map_app. cbn. rewrite <- !app_assoc. reflexivity.
  - unfold requests. cbn. rewrite !omap_app. cbn. rewrite !app_nil_r. reflexivity.
Qed.

(** X16. [setActiveNetwork] with the name of a member of [Object.prototype]
    under which the record has no entry, such as [toString], does not throw
    the error for an unknown id: the member passes for a configuration, none
    of whose fields is there.  The active configuration becomes one of type
    [rpc] without chain id, URL, ticker, nickname, preferences and id, the
    configuration before the call is stored as previous, the status is
    reset, and the call throws for the missing chain id, without having
    created a client. *)
Theorem setActiveNetwork_inherited_name i c :
  obj_get i (networkConfigurations (state c)) = None ->
  i ∈ Object_prototype ->
  let c' := after (setActiveNetwork i) c in
  completion (setActiveNetwork i) c =
    Throw (Error "chainId must be provided for custom RPC endpoints") /\
  providerConfig (state c') =
    {| pc_type := rpc; pc_rpcUrl := None; pc_chainId := None; pc_ticker := None;
       pc_nickname := None; pc_rpcPrefs := None; pc_id := None |} /\
  previousProviderConfig c' = providerConfig (state c) /\
  networkStatus (state c') = Unknown /\ networkId (state c') = None /\
  networkConfigurations (state c') = networkConfigurations (state c) /\
  providerProxy c' = providerProxy c /\ blockTrackerProxy c' = blockTrackerProxy c /\
  ethQuery c' = ethQuery c /\
  frames c' = frames c /\ subscribers c' = subscribers c /\
  map effect (trace c') =
    map effect (trace c) ++ [Publish stateChange; Publish networkWillChange; Publish stateChange].
Proof.
  intros Hget Hproto. cbn zeta.
  assert (Hindex : obj_index i (networkConfigurations (state c)) = inherited).
  { unfold obj_index. rewrite Hget. rewrite bool_decide_eq_true_2 by exact Hproto. reflexivity. }
  unfold after, completion. rewrite (setActiveNetwork_inherited _ _ Hindex).
  split_and!; try reflexivity.
  cbn. rewrite !map_app. cbn. rewrite <- !app_assoc. reflexivity.
Qed.

End Switching.

(** ** The record of network configurations *)

Section RegistryUse.
Context `{Dependencies}.

Lemma refreshNetwork_returns c client :
  network_client (infuraProjectId c) (providerConfig (state c)) = Some client ->
  completion refreshNetwork c = Return (Suspended (nextFrame c)).
Proof.
  intros Hclient. destruct (refreshNetwork_run c client Hclient) as (c4 & Hrun & _).
  unfold completion. rewrite Hrun. reflexivity.
Qed.

Lemma setActiveNetwork_after_upsert_returns i entry c3 :
  obj_get i (networkConfigurations (state c3)) = Some entry ->
  is_Some (nc_chainId entry) -> is_Some (nc_rpcUrl entry) ->
  exists c4 a, setActiveNetwork i c3 = (c4, Return a).
Proof.
  intros Hget [chainId Hchain] [rpcUrl Hurl].
  rewrite (setActiveNetwork_found i c3 entry Hget).
  destruct (refreshNetwork_run
              (updated (with_providerConfig (custom_providerConfig entry))
                 (set_previousProviderConfig (providerConfig (state c3)) c3))
              (CustomClient chainId rpcUrl)) as (c4 & Hrun & _).
  - unfold network_client, custom_providerConfig. cbn. rewrite Hchain, Hurl. reflexivity.
  - rewrite Hrun. eauto.
Qed.

Lemma upsertNetworkConfiguration_throws input options c c' e :
  upsertNetworkConfiguration input options c = (c', Throw e) -> c' = c.
Proof.
  unfold upsertNetworkConfiguration. intros Hrun.
  destruct (isStrictHexString (in_chainId input)); cbn [negb] in Hrun;
    [|injection Hrun as <- _; reflexivity].
  destruct (isSafeChainId (in_chainId input)); cbn [negb] in Hrun;
    [|injection Hrun as <- _; reflexivity].
  destruct (truthy (in_rpcUrl input)) as [rpcUrl|]; [|injection Hrun as <- _; reflexivity].
  destruct (truthy (referrer options)) as [ref|]; [|injection Hrun as <- _; reflexivity].
  destruct (truthy (source options)) as [src|]; [|injection Hrun as <- _; reflexivity].
  destruct (match URL_error rpcUrl with Some m => includes "Invalid URL" m | None => false end);
    [injection Hrun as <- _; reflexivity|].
  destruct (truthy (in_ticker input)) as [ticker|]; [|injection Hrun as <- _; reflexivity].
  exfalso.
  unfold bind at 1 in Hrun. unfold gets at 1 in Hrun.
  destruct (truthy (nc_id <$> find (sameRpcUrl rpcUrl)
                      (Object_values (networkConfigurations (state c))))) as [k|].
  - unfold bind at 1 in Hrun. unfold ret at 1 in Hrun.
    unfold bind at 1 in Hrun. rewrite update_eq in Hrun.
    unfold bind at 1 in Hrun. unfold ret at 1 in Hrun.
    unfold bind at 1 in Hrun.
    destruct (setActive options); [|discriminate Hrun].
    match type of Hrun with
    | context [setActiveNetwork k ?c3] =>
        destruct (setActiveNetwork_after_upsert_returns k
                    (upserted input rpcUrl ticker k) c3) as (c4 & a4 & Hset)
    end.
    + apply obj_get_set_eq.
    + eexists; reflexivity.
    + eexists; reflexivity.
    + rewrite Hset in Hrun. discriminate Hrun.
  - unfold bind at 1 in Hrun.
    change (random_v4 c) with (set_randomCalls (S (randomCalls c)) c, Return (random (randomCalls c))) in Hrun.
    unfold bind at 1 in Hrun. rewrite update_eq in Hrun.
    unfold bind at 1 in Hrun.
    change (trackMetaMetricsEvent ?p ?c0) with
      (set_trace (trace c0 ++ [observed (TrackMetaMetricsEvent p) c0]) c0, Return tt) in Hrun.
    unfold bind at 1 in Hrun.
    destruct (setActive options); [|discriminate Hrun].
    match type of Hrun with
    | context [setActiveNetwork (random (randomCalls c)) ?c3] =>
        destruct (setActiveNetwork_after_upsert_returns (random (randomCalls c))
                    (upserted input rpcUrl ticker (random (randomCalls c))) c3) as (c4 & a4 & Hset)
    end.
    + apply obj_get_set_eq.
    + eexists; reflexivity.
    + eexists; reflexivity.
    + rewrite Hset in Hrun. discriminate Hrun.
Qed.

(** X4. [upsertNetworkConfiguration] throws only from its checks: whenever it
    throws, the controller is exactly as it was, with no entry written, no
    id generated and nothing tracked. *)
Theorem upsert_throws_before_writing input options c c' e :
  upsertNetworkConfiguration input options c = (c', Throw e) -> c' = c.
Proof. apply upsertNetworkConfiguration_throws. Qed.

(** A call that returns has passed the checks. *)
Lemma upsertNetworkConfiguration_checked input options c c' i a :
  upsertNetworkConfiguration input options c = (c', Return (i, a)) ->
  exists rpcUrl ticker ref src,
    truthy (in_rpcUrl input) = Some rpcUrl /\ truthy (in_ticker input) = Some ticker /\
    truthy (referrer options) = Some ref /\ truthy (source options) = Some src /\
    isStrictHexString (in_chainId input) = true /\ isSafeChainId (in_chainId input) = true /\
    (forall m, URL_error rpcUrl = Some m -> includes "Invalid URL" m = false).
Proof.
  unfold upsertNetworkConfiguration.
  destruct (isStrictHexString (in_chainId input)); cbn [negb]; [|discriminate].
  destruct (isSafeChainId (in_chainId input)); cbn [negb]; [|discriminate].
  destruct (truthy (in_rpcUrl input)) as [rpcUrl|]; [|discriminate].
  destruct (truthy (referrer options)) as [ref|]; [|discriminate].
  destruct (truthy (source options)) as [src|]; [|discriminate].
  destruct (URL_error rpcUrl) as [m|] eqn:Hm.
  - destruct (includes "Invalid URL" m) eqn:Hinc; [discriminate|].
    destruct (truthy (in_ticker input)) as [ticker|]; [|discriminate].
    intros _. exists rpcUrl, ticker, ref, src.
    do 6 (split; [reflexivity|]). intros m' Hm'. congruence.
  - destruct (truthy (in_ticker input)) as [ticker|]; [|discriminate].
    intros _. exists rpcUrl, ticker, ref, src.
    do 6 (split; [reflexivity|]). intros m' Hm'. congruence.
Qed.

Lemma obj_delete_absent {V} k (o : list (string * V)) :
  obj_get k o = None -> obj_delete k o = o.
Proof.
  induction o as [|[k' v'] o IH]; cbn; [reflexivity|].
  destruct (String.eqb k' k); [discriminate|]. intros Hnone. rewrite IH by exact Hnone.
  reflexivity.
Qed.

(** X5. [removeNetworkConfiguration] throws, and leaves the controller as
    it was, exactly for an id that is neither in the record nor the name of
    a member of [Object.prototype].  For any other id it returns: an entry
    under that id is removed and no other, and nothing else is written: the
    active configuration stays even when it carries that id, the proxies,
    the probes and the stored previous configuration stay.  For a name such
    as [toString] under which the record has no entry it returns as well,
    with the whole state as it was. *)
Theorem removeNetworkConfiguration_removes_one i c :
  let c' := after (removeNetworkConfiguration i) c in
  let old := networkConfigurations (state c) in
  (obj_get i old = None -> i ∉ Object_prototype ->
   removeNetworkConfiguration i c =
   (c, Throw (Error ("networkConfigurationId " +:+ i +:+
                     " does not match a configured networkConfiguration")))) /\
  (is_Some (obj_get i old) \/ i ∈ Object_prototype ->
   completion (removeNetworkConfiguration i) c = Return tt /\
   obj_get i (networkConfigurations (state c')) = None /\
   (forall k, k <> i -> obj_get k (networkConfigurations (state c')) = obj_get k old) /\
   (obj_get i old = None -> state c' = state c) /\
   providerConfig (state c') = providerConfig (state c) /\
   networkStatus (state c') = networkStatus (state c) /\
   networkId (state c') = networkId (state c) /\
   networkDetails (state c') = networkDetails (state c) /\
   previousProviderConfig c' = previousProviderConfig c /\
   providerProxy c' = providerProxy c /\ blockTrackerProxy c' = blockTrackerProxy c /\
   frames c' = frames c /\ subscribers c' = subscribers c /\
   publications (trace c') = publications (trace c) ++ [stateChange]).
Proof.
  cbn zeta. pose proof (obj_index_cases i (networkConfigurations (state c))) as Hcases. split.
  - intros Hnone Hproto. apply removeNetworkConfiguration_missing.
    destruct (obj_index i (networkConfigurations (state c))) as [t| |].
    + congruence.
    + destruct Hcases as [_ Hin]. contradiction.
    + reflexivity.
  - intros Hfound.
    assert (Heq : removeNetworkConfiguration i c =
                  (updated (fun s => with_networkConfigurations
                                       (obj_delete i (networkConfigurations s)) s) c, Return tt)).
    { apply removeNetworkConfiguration_found.
      destruct (obj_index i (networkConfigurations (state c))) as [t| |]; try discriminate.
      destruct Hcases as [Hnone Hproto]. destruct Hfound as [[t Hget]|Hin]; [congruence|contradiction]. }
    unfold after, completion. rewrite Heq. cbn [fst snd].
    split_and!; try reflexivity.
    + apply obj_get_delete_eq.
    + intros k Hk. apply obj_get_delete_ne, Hk.
    + intros Hnone. cbn. rewrite (obj_delete_absent _ _ Hnone). destruct (state c). reflexivity.
    + cbn. rewrite publications_app. reflexivity.
Qed.

Lemma obj_delete_app {V} k (o1 o2 : list (string * V)) :
  obj_delete k (o1 ++ o2) = obj_delete k o1 ++ obj_delete k o2.
Proof.
  induction o1 as [|[k' v'] o1 IH]; cbn; [reflexivity|].
  destruct (String.eqb k' k); cbn; rewrite IH; reflexivity.
Qed.

(** X6. Adding a definition whose URL no entry has, and removing it again by
    the id that was handed out, gives back the record as it was, entry for
    entry, when the generated id was not in use. *)
Theorem upsert_then_remove_restores input options c c' i a rpcUrl :
  upsertNetworkConfiguration input options c = (c', Return (i, a)) ->
  truthy (in_rpcUrl input) = Some rpcUrl ->
  (forall e, e ∈ Object_values (networkConfigurations (state c)) -> sameRpcUrl rpcUrl e = false) ->
  obj_get (random (randomCalls c)) (networkConfigurations (state c)) = None ->
  i = random (randomCalls c) /\
  completion (removeNetworkConfiguration i) c' = Return tt /\
  networkConfigurations (state (after (removeNetworkConfiguration i) c'))
  = networkConfigurations (state c).
Proof.
  intros Hrun Hurl Hnone Hfresh.
  assert (Hvalid : exists ticker ref src,
            truthy (in_ticker input) = Some ticker /\
            truthy (referrer options) = Some ref /\ truthy (source options) = Some src).
  { revert Hrun. unfold upsertNetworkConfiguration.
    destruct (isStrictHexString (in_chainId input)); cbn [negb]; [|discriminate].
    destruct (isSafeChainId (in_chainId input)); cbn [negb]; [|discriminate].
    rewrite Hurl.
    destruct (truthy (referrer options)) as [ref|]; [|discriminate].
    destruct (truthy (source options)) as [src|]; [|discriminate].
    destruct (match URL_error rpcUrl with Some m => includes "Invalid URL" m | None => false end);
      [discriminate|].
    destruct (truthy (in_ticker input)) as [ticker|]; [|discriminate].
    intros _. exists ticker, ref, src. auto. }
  destruct Hvalid as (ticker & ref & src & Hticker & Href & Hsrc).
  destruct (upsertNetworkConfiguration_run _ _ _ _ _ _ _ _ _ _ Hrun Hurl Hticker Href Hsrc)
    as [Hi Hc']. cbn zeta in Hi, Hc'.
  assert (Hfind : find (sameRpcUrl rpcUrl) (Object_values (networkConfigurations (state c))) = None).
  { destruct (find _ _) as [found|] eqn:Hfind; [|reflexivity].
    apply find_some in Hfind as [Hin Hsame].
    rewrite (Hnone found) in Hsame; [discriminate|]. apply list_elem_of_In, Hin. }
  rewrite Hfind in Hi, Hc'. cbn in Hi. subst i.
  set (i := random (randomCalls c)) in *.
  assert (Hreg : networkConfigurations (state c') =
                 networkConfigurations (state c) ++ [(i, upserted input rpcUrl ticker i)]).
  { rewrite Hc'. cbn [fmap option_fmap option_map truthy].
    rewrite <- (obj_set_absent i (upserted input rpcUrl ticker i) _ Hfresh).
    destruct (setActive options); [|reflexivity].
    apply setActiveNetwork_networkConfigurations. reflexivity. }
  split; [reflexivity|].
  assert (Hget : obj_get i (networkConfigurations (state c')) = Some (upserted input rpcUrl ticker i)).
  { rewrite Hreg, <- (obj_set_absent i _ _ Hfresh). apply obj_get_set_eq. }
  assert (Heq : removeNetworkConfiguration i c' =
                (updated (fun s => with_networkConfigurations
                                     (obj_delete i (networkConfigurations s)) s) c', Return tt)).
  { apply removeNetworkConfiguration_found. rewrite (obj_index_own _ _ _ Hget). discriminate. }
  unfold after, completion. rewrite Heq. cbn [fst snd]. split; [reflexivity|].
  cbn. rewrite Hreg, obj_delete_app, (obj_delete_absent _ _ Hfresh). cbn.
  rewrite String.eqb_refl. apply app_nil_r.
Qed.

End RegistryUse.

(** ** What the record of network configurations keeps *)

Section RegistryInvariant.
Context `{Dependencies}.

Lemma obj_set_keys {V} k (v : V) o x :
  x ∈ map fst (obj_set k v o) <-> x = k \/ x ∈ map fst o.
Proof.
  induction o as [|[k' v'] o IH]; cbn.
  - rewrite list_elem_of_singleton. split; [auto|]. intros [->|Hin]; [reflexivity|inversion Hin].
  - destruct (String.eqb k' k) eqn:Hk; cbn.
    + apply String.eqb_eq in Hk as ->. rewrite !elem_of_cons. tauto.
    + rewrite !elem_of_cons, IH. tauto.
Qed.

Lemma obj_set_NoDup_keys {V} k (v : V) o :
  NoDup (map fst o) -> NoDup (map fst (obj_set k v o)).
Proof.
  induction o as [|[k' v'] o IH]; cbn; intros Hnd.
  - apply NoDup_singleton.
  - apply NoDup_cons in Hnd as [Hnotin Hnd].
    destruct (String.eqb k' k) eqn:Hk; cbn.
    + apply String.eqb_eq in Hk as ->. apply NoDup_cons. auto.
    + apply NoDup_cons. split; [|apply IH, Hnd].
      rewrite obj_set_keys. intros [->|Hin]; [|contradiction].
      rewrite String.eqb_refl in Hk. discriminate.
Qed.

Lemma obj_set_urls k e r x :
  x ∈ lowercase_urls (obj_set k e r) ->
  toLowerCase <$> nc_rpcUrl e = Some x \/ x ∈ lowercase_urls r.
Proof.
  unfold lowercase_urls. induction r as [|[k' e'] r IH]; cbn.
  - destruct (nc_rpcUrl e); cbn; [|intros Hin; inversion Hin].
    rewrite list_elem_of_singleton. intros ->. left. reflexivity.
  - destruct (String.eqb k' k); cbn.
    + destruct (nc_rpcUrl e); cbn; destruct (nc_rpcUrl e'); cbn;
        rewrite ?elem_of_cons; intuition congruence.
    + destruct (nc_rpcUrl e'); cbn; rewrite ?elem_of_cons; intuition.
Qed.

(** Writing an entry whose URL, up to case, no entry under another id has. *)
Lemma obj_set_NoDup_urls k e r :
  NoDup (map fst r) -> NoDup (lowercase_urls r) ->
  (forall k' e' u, (k', e') ∈ r -> k' <> k -> toLowerCase <$> nc_rpcUrl e' = Some u ->
                   toLowerCase <$> nc_rpcUrl e <> Some u) ->
  NoDup (lowercase_urls (obj_set k e r)).
Proof.
  induction r as [|[k0 e0] r IH]; intros Hkeys Hurls Hother.
  - unfold lowercase_urls. cbn. destruct (nc_rpcUrl e); cbn; [apply NoDup_singleton|apply NoDup_nil_2].
  - cbn in Hkeys. apply NoDup_cons in Hkeys as [Hk0 Hkeys]. cbn [obj_set].
    assert (Htail : NoDup (lowercase_urls r)).
    { unfold lowercase_urls in *. cbn in Hurls. destruct (toLowerCase <$> nc_rpcUrl e0); cbn in Hurls;
        [apply NoDup_cons in Hurls as [_ Hurls]|]; exact Hurls. }
    destruct (String.eqb k0 k) eqn:Hk.
    + apply String.eqb_eq in Hk as ->.
      change (lowercase_urls ((k, e) :: r)) with
        (match toLowerCase <$> nc_rpcUrl e with Some u => u :: lowercase_urls r | None => lowercase_urls r end).
      destruct (toLowerCase <$> nc_rpcUrl e) as [u|] eqn:Hu; [|exact Htail].
      apply NoDup_cons. split; [|exact Htail].
      intros Hin. unfold lowercase_urls in Hin. apply list_elem_of_omap in Hin as ([k' e'] & Hin & Hu').
      cbn in Hu'. refine (Hother k' e' u _ _ Hu' eq_refl).
      * right. exact Hin.
      * intros ->. apply Hk0. apply list_elem_of_fmap. exists (k, e'). split; [reflexivity|exact Hin].
    + change (lowercase_urls ((k0, e0) :: obj_set k e r)) with
        (match toLowerCase <$> nc_rpcUrl e0 with
         | Some u => u :: lowercase_urls (obj_set k e r)
         | None => lowercase_urls (obj_set k e r)
         end).
      assert (IH' : NoDup (lowercase_urls (obj_set k e r))).
      { apply IH; [exact Hkeys|exact Htail|].
        intros k' e' u Hin. apply Hother. right. exact Hin. }
      destruct (toLowerCase <$> nc_rpcUrl e0) as [u0|] eqn:Hu0; [|exact IH'].
      apply NoDup_cons. split; [|exact IH'].
      intros Hin. apply obj_set_urls in Hin as [Hsame|Hin].
      * refine (Hother k0 e0 u0 _ _ Hu0 Hsame); [left|].
        intros ->. rewrite String.eqb_refl in Hk. discriminate.
      * unfold lowercase_urls in Hurls. cbn in Hurls. rewrite Hu0 in Hurls. cbn in Hurls.
        apply NoDup_cons in Hurls as [Hnotin _]. contradiction.
Qed.

Lemma obj_delete_sublist {V} k (o : list (string * V)) : sublist (obj_delete k o) o.
Proof.
  induction o as [|[k' v'] o IH]; cbn; [constructor|].
  destruct (String.eqb k' k); [apply sublist_cons, IH|apply sublist_skip, IH].
Qed.

Lemma obj_delete_registry_invariant k r :
  registry_invariant r -> registry_invariant (obj_delete k r).
Proof.
  intros (Hwf & Hkeys & Hurls). pose proof (obj_delete_sublist k r) as Hsub.
  split; [|split].
  - unfold registry_wf in *. rewrite forallb_forall in *. intros x Hx. apply Hwf.
    apply list_elem_of_In. eapply elem_of_sublist; [|exact Hsub]. apply list_elem_of_In, Hx.
  - eapply sublist_NoDup; [exact Hkeys|].
    clear -Hsub. induction Hsub as [|x l1 l2 Hsub IH|x l1 l2 Hsub IH]; cbn.
    + constructor.
    + apply sublist_skip, IH.
    + apply sublist_cons, IH.
  - eapply sublist_NoDup; [exact Hurls|]. unfold lowercase_urls.
    clear -Hsub. induction Hsub as [|x l1 l2 Hsub IH|x l1 l2 Hsub IH]; cbn.
    + constructor.
    + destruct (toLowerCase <$> nc_rpcUrl x.2); [apply sublist_skip|]; exact IH.
    + destruct (toLowerCase <$> nc_rpcUrl x.2); [apply sublist_cons|]; exact IH.
Qed.

Lemma truthy_nonempty o k : truthy o = Some k -> k <> "".
Proof. destruct o as [[|a s]|]; cbn; congruence. Qed.

Lemma lowercase_urls_injective r : NoDup (lowercase_urls r) ->
  forall x y u, x ∈ r -> y ∈ r ->
    toLowerCase <$> nc_rpcUrl x.2 = Some u -> toLowerCase <$> nc_rpcUrl y.2 = Some u -> x = y.
Proof.
  unfold lowercase_urls. induction r as [|z r IH]; intros Hnd x y u Hx Hy Hxu Hyu.
  - inversion Hx.
  - assert (Htail : NoDup (omap (fun ke => toLowerCase <$> nc_rpcUrl ke.2) r)).
    { cbn in Hnd. destruct (toLowerCase <$> nc_rpcUrl z.2); [apply NoDup_cons in Hnd as [_ Hnd]|];
        exact Hnd. }
    assert (Hhead : forall w, w ∈ r -> toLowerCase <$> nc_rpcUrl w.2 = Some u ->
                              toLowerCase <$> nc_rpcUrl z.2 = Some u -> False).
    { intros w Hw Hwu Hzu. cbn in Hnd. rewrite Hzu in Hnd. apply NoDup_cons in Hnd as [Hnotin _].
      apply Hnotin, list_elem_of_omap. exists w. auto. }
    apply elem_of_cons in Hx as [->|Hx]; apply elem_of_cons in Hy as [->|Hy].
    + reflexivity.
    + exfalso. eauto.
    + exfalso. eauto.
    + eapply IH; eauto.
Qed.

(** Every turn but an upsert or a removal leaves the record as it is. *)
Lemma turn_keeps_registry t c :
  keeps_registry t = true ->
  networkConfigurations (state (turn t c)) = networkConfigurations (state c).
Proof.
  destruct t; cbn [keeps_registry turn]; try discriminate; intros _;
    match goal with
    | |- networkConfigurations (state (after ?m c)) = ?x =>
        generalize (eq_refl x); generalize c at 1 3;
        change (stable (fun c0 => networkConfigurations (state c0) = x) m)
    end;
    unfold_methods; stable_with untouched.
Qed.

Lemma upsert_registry_invariant input options c c' i a :
  upsertNetworkConfiguration input options c = (c', Return (i, a)) ->
  random (randomCalls c) <> "" ->
  registry_invariant (networkConfigurations (state c)) ->
  registry_invariant (networkConfigurations (state c')).
Proof.
  intros Hrun Hrandom (Hwf & Hkeys & Hurls).
  destruct (upsertNetworkConfiguration_checked _ _ _ _ _ _ Hrun)
    as (rpcUrl & ticker & ref & src & Hurl & Hticker & Href & Hsrc & _).
  destruct (upsertNetworkConfiguration_run _ _ _ _ _ _ _ _ _ _ Hrun Hurl Hticker Href Hsrc)
    as [Hi Hc']. cbn zeta in Hi, Hc'.
  set (old := networkConfigurations (state c)) in *.
  set (entry := upserted input rpcUrl ticker i) in *.
  assert (Hnew : networkConfigurations (state c') = obj_set i entry old).
  { rewrite Hc'.
    assert (Hc3 : forall c3,
              c3 = match truthy (nc_id <$> find (sameRpcUrl rpcUrl) (Object_values old)) with
                   | Some _ => updated (with_networkConfigurations (obj_set i entry old)) c
                   | None =>
                       let c2 := updated (with_networkConfigurations (obj_set i entry old))
                                   (set_randomCalls (S (randomCalls c)) c) in
                       set_trace (trace c2 ++ [observed (TrackMetaMetricsEvent (network_added input ticker ref src)) c2]) c2
                   end ->
              networkConfigurations (state c3) = obj_set i entry old).
    { intros c3 ->. destruct (truthy (nc_id <$> _)); reflexivity. }
    destruct (setActive options); [|apply Hc3; reflexivity].
    apply setActiveNetwork_networkConfigurations, Hc3. reflexivity. }
  rewrite Hnew.
  assert (Hne : i <> "").
  { destruct (truthy (nc_id <$> find (sameRpcUrl rpcUrl) (Object_values old))) as [k|] eqn:Hold.
    - cbn in Hi. subst i. eapply truthy_nonempty, Hold.
    - cbn in Hi. subst i. exact Hrandom. }
  split; [apply obj_set_registry_wf; [exact Hwf|reflexivity|exact Hne]|].
  split; [apply obj_set_NoDup_keys, Hkeys|].
  apply obj_set_NoDup_urls; [exact Hkeys|exact Hurls|].
  intros k' e' u Hin Hk' Hu. cbn. intros [= Hsame].
  destruct (find (sameRpcUrl rpcUrl) (Object_values old)) as [found|] eqn:Hfind.
  - destruct (find_Object_values _ _ _ Hfind) as [Hmatch [kf Hf]].
    destruct (registry_wf_elem_of _ _ _ Hwf Hf) as [Hid Hkf].
    assert (Hi' : i = kf).
    { assert (Ht : truthy (nc_id <$> Some found) = Some kf).
      { change (nc_id <$> Some found) with (Some (nc_id found)).
        rewrite Hid. apply truthy_Some, Hkf. }
      rewrite Ht in Hi. exact Hi. }
    apply sameRpcUrl_true in Hmatch as (uf & Huf & Hlower).
    assert (Heq : (k', e') = (kf, found)).
    { eapply (lowercase_urls_injective old Hurls _ _ u Hin Hf); cbn.
      - exact Hu.
      - rewrite Huf. cbn. congruence. }
    congruence.
  - pose proof (find_none _ _ Hfind e') as Hno.
    assert (Hsame' : sameRpcUrl rpcUrl e' = true).
    { apply sameRpcUrl_true. destruct (nc_rpcUrl e') as [u'|]; [|discriminate].
      exists u'. split; [reflexivity|]. cbn in Hu. congruence. }
    rewrite Hno in Hsame'; [discriminate|].
    apply list_elem_of_In, elem_of_Object_values. exists k'. exact Hin.
Qed.

(** X7. Whatever turn is taken, the record keeps holding every entry under
    its own non-empty id, no id twice and no URL twice up to case, when the
    ids that are generated are not empty. *)
Theorem registry_invariant_kept ts c :
  (forall n, random n <> "") ->
  registry_invariant (networkConfigurations (state c)) ->
  registry_invariant (networkConfigurations (state (turns ts c))).
Proof.
  intros Hrandom. revert c. induction ts as [|t ts IH]; intros c Hinv; [exact Hinv|].
  cbn [turns fold_left]. apply IH.
  destruct (keeps_registry t) eqn:Hkeeps.
  - rewrite turn_keeps_registry by exact Hkeeps. exact Hinv.
  - destruct t; try discriminate; cbn [turn]; unfold after.
    + destruct (upsertNetworkConfiguration input options c) as [c' [[i a]|e]] eqn:Hrun; cbn [fst].
      * eapply upsert_registry_invariant; [exact Hrun|apply Hrandom|exact Hinv].
      * rewrite (upsertNetworkConfiguration_throws _ _ _ _ _ Hrun). exact Hinv.
    + destruct (obj_index networkConfigurationId (networkConfigurations (state c)))
        as [e| |] eqn:Hget.
      * rewrite removeNetworkConfiguration_found by (rewrite Hget; discriminate).
        cbn. apply obj_delete_registry_invariant, Hinv.
      * rewrite removeNetworkConfiguration_found by (rewrite Hget; discriminate).
        cbn. apply obj_delete_registry_invariant, Hinv.
      * rewrite (removeNetworkConfiguration_missing _ _ Hget). exact Hinv.
Qed.

(** X8. Only [upsertNetworkConfiguration] and [removeNetworkConfiguration]
    write the record: switching, rolling back, probing and the rest leave
    every entry in place. *)
Theorem only_upsert_and_remove_write_the_record ts c :
  forallb keeps_registry ts = true ->
  networkConfigurations (state (turns ts c)) = networkConfigurations (state c).
Proof.
  revert c. induction ts as [|t ts IH]; intros c Hall; [reflexivity|].
  cbn in Hall. apply andb_prop in Hall as [Ht Hts].
  cbn [turns fold_left]. fold (turns ts (turn t c)). rewrite (IH _ Hts).
  apply turn_keeps_registry, Ht.
Qed.

End RegistryInvariant.

(** ** What a probe commits *)

Section Commit.
Context `{Dependencies}.

Lemma lookupNetwork_catch_not_Available managed error :
  lookupNetwork_catch managed error <> Available.
Proof.
  rewrite lookupNetwork_catch_cases.
  destruct (isErrorWithCode error), (managed && blocked_payload error), (internal_code error);
    discriminate.
Qed.

(** The state a probe that was not superseded leaves behind. *)
Lemma lookupNetwork_resume_state c0 c1 p ts s :
  lookupNetwork c0 = (c1, Return (Suspended p)) ->
  Forall (other_turn p) ts ->
  published networkDidChange (turns ts c1) = published networkDidChange c1 ->
  let managed := isInfuraProviderType (pc_type (providerConfig (state c0))) in
  state (after (lookupNetwork_resume p s) (turns ts c1)) =
  lookupNetwork_commit (lookupNetwork_try managed s).1.2 (lookupNetwork_try managed s).1.1
    (lookupNetwork_try managed s).2 (state (turns ts c1)).
Proof.
  intros Hstart Hts Hpub managed.
  pose proof (suspended_until_resumed _ _ _ _ Hstart Hts) as Hsusp.
  destruct (suspended_fresh _ _ _ _ Hsusp Hpub) as (fr & Hfr & Hb & Hflag).
  unfold after. rewrite (lookupNetwork_resume_fresh _ p fr s Hfr Hflag). cbn [fst].
  rewrite lookupNetwork_committed_state, Hb. reflexivity.
Qed.

(** X9. A probe that was not superseded commits status, network id and
    EIP-1559 flag together: either the status is [Available] and both the id
    and the flag are there, or the status is another one and both are
    cleared.  When both requests are answered and the id can be read, the
    status is [Available], the id is the converted one, and the flag says
    whether the latest block has a base fee ([false] for a [null] block).
    The active configuration and the record are not written. *)
Theorem probe_commits_all_or_nothing c0 c1 p ts s :
  lookupNetwork c0 = (c1, Return (Suspended p)) ->
  Forall (other_turn p) ts ->
  let c2 := turns ts c1 in
  published networkDidChange c2 = published networkDidChange c1 ->
  let c3 := after (lookupNetwork_resume p s) c2 in
  let flag := EIPS (networkDetails (state c3)) !! 1559%N in
  (networkStatus (state c3) = Available /\ is_Some (networkId (state c3)) /\ is_Some flag \/
   networkStatus (state c3) <> Available /\ networkId (state c3) = None /\ flag = None) /\
  (forall v latest i,
     netVersion s = Resolved v -> convertNetworkId v = Some i ->
     latestBlock s = Resolved latest ->
     networkStatus (state c3) = Available /\ networkId (state c3) = Some i /\
     flag = Some (has_baseFeePerGas latest)) /\
  providerConfig (state c3) = providerConfig (state c2) /\
  networkConfigurations (state c3) = networkConfigurations (state c2).
Proof.
  intros Hstart Hts c2 Hpub c3 flag.
  pose proof (lookupNetwork_resume_state _ _ _ _ s Hstart Hts Hpub) as Hstate.
  cbn zeta in Hstate. fold c2 c3 in Hstate.
  set (managed := isInfuraProviderType (pc_type (providerConfig (state c0)))) in *.
  unfold flag. rewrite Hstate.
  destruct (lookupNetwork_commit_reads (lookupNetwork_try managed s).1.2
              (lookupNetwork_try managed s).1.1 (lookupNetwork_try managed s).2 (state c2))
    as (-> & -> & ->).
  split_and!; try reflexivity.
  - unfold lookupNetwork_try. destruct (Promise_all s) as [error|[i b]]; cbn.
    + right. split; [apply lookupNetwork_catch_not_Available|]. split; reflexivity.
    + left. split; [reflexivity|]. split; eexists; reflexivity.
  - intros v latest i Hv Hconv Hlatest.
    unfold lookupNetwork_try, Promise_all, getNetworkId_settle, determineEIP1559Compatibility_settle.
    rewrite Hv, Hconv, Hlatest. cbn. split; [reflexivity|]. split; reflexivity.
Qed.

(** X10. The status a probe commits is [Blocked] exactly when the configuration
    it found was an Infura one and [Promise.all] rejected with an error that
    has a [code] property and carries the blocked payload, whatever that
    code is: a network reached by a custom RPC URL is never reported as
    blocked. *)
Theorem probe_reports_blocked_only_for_infura c0 c1 p ts s :
  lookupNetwork c0 = (c1, Return (Suspended p)) ->
  Forall (other_turn p) ts ->
  let c2 := turns ts c1 in
  published networkDidChange c2 = published networkDidChange c1 ->
  let c3 := after (lookupNetwork_resume p s) c2 in
  networkStatus (state c3) = Blocked <->
  isInfuraProviderType (pc_type (providerConfig (state c0))) = true /\
  exists error, Promise_all s = Rejected error /\
                isErrorWithCode error = true /\ blocked_payload error = true.
Proof.
  intros Hstart Hts c2 Hpub c3.
  pose proof (lookupNetwork_resume_state _ _ _ _ s Hstart Hts Hpub) as Hstate.
  cbn zeta in Hstate. fold c2 c3 in Hstate. rewrite Hstate.
  set (managed := isInfuraProviderType (pc_type (providerConfig (state c0)))).
  cbn [networkStatus lookupNetwork_commit]. unfold lookupNetwork_try.
  destruct (Promise_all s) as [error|[i b]]; cbn [fst snd].
  - rewrite lookupNetwork_catch_cases. split.
    + destruct (isErrorWithCode error) eqn:Hcode; [|discriminate].
      destruct managed; cbn [andb].
      * destruct (blocked_payload error) eqn:Hblocked.
        -- intros _. split; [reflexivity|]. exists error. auto.
        -- destruct (internal_code error); discriminate.
      * destruct (internal_code error); discriminate.
    + intros (-> & error' & [= <-] & -> & ->). reflexivity.
  - split; [discriminate|]. intros (_ & error & [=] & _).
Qed.

(** X11. When the continuation of a probe that was not superseded unsubscribes
    its listener, the listener is subscribed; afterwards it is not, the
    frame of the call is gone, and answers that arrive for it once more
    change nothing. *)
Theorem probe_unsubscribes_its_listener c0 c1 p ts s :
  lookupNetwork c0 = (c1, Return (Suspended p)) ->
  Forall (other_turn p) ts ->
  let c2 := turns ts c1 in
  published networkDidChange c2 = published networkDidChange c1 ->
  let c3 := after (lookupNetwork_resume p s) c2 in
  p ∈ subscribers c2 /\ (p ∉ subscribers c3) /\ frames c3 !! p = None /\
  forall s', lookupNetwork_resume p s' c3 = (c3, Return tt).
Proof.
  intros Hstart Hts c2 Hpub c3.
  pose proof (suspended_until_resumed _ _ _ _ Hstart Hts) as Hsusp. fold c2 in Hsusp.
  destruct Hsusp as (_ & fr & Hfr & _ & [(Hflag & Hin & _)|(_ & Hlt)]); [|lia].
  assert (Hc3 : c3 = lookupNetwork_committed p fr s c2).
  { unfold c3, after. rewrite (lookupNetwork_resume_fresh c2 p fr s Hfr Hflag). reflexivity. }
  assert (Hgone : frames c3 !! p = None).
  { rewrite Hc3. unfold lookupNetwork_committed.
    destruct (lookupNetwork_try (isInfura fr) s) as [[status i] compat]. cbn.
    apply lookup_delete_eq. }
  split; [exact Hin|]. split; [|split; [exact Hgone|]].
  - rewrite Hc3. unfold lookupNetwork_committed.
    destruct (lookupNetwork_try (isInfura fr) s) as [[status i] compat]. cbn.
    rewrite list_elem_of_filter. intros [Hne _]. congruence.
  - intros s'. apply lookupNetwork_resume_gone, Hgone.
Qed.

End Commit.

Section CommitInstances.
#[local] Existing Instance sample_Dependencies.

Lemma probe_commits_all_or_nothing_witness :
  let c3 := after (lookupNetwork_resume 1 good_settlement) (turns [] probing_mainnet) in
  lookupNetwork on_mainnet = (probing_mainnet, Return (Suspended 1)) /\
  networkStatus (state c3) = Available /\ networkId (state c3) = Some "1" /\
  EIPS (networkDetails (state c3)) !! 1559%N = Some true.
Proof.
  cbn zeta. split; [exact probing_mainnet_suspended|].
  exact (proj1 (proj2 (probe_commits_all_or_nothing on_mainnet probing_mainnet 1 [] good_settlement
                         probing_mainnet_suspended (@List.Forall_nil Turn (other_turn 1))
                         no_switch_meanwhile))
           (JsString "1") (Some {| baseFeePerGas := Some "0x63c498a46" |}) "1"
           eq_refl eq_refl eq_refl).
Defined.

Lemma probe_reports_blocked_only_for_infura_witness :
  let c3 := after (lookupNetwork_resume 1 good_settlement) (turns [] probing_mainnet) in
  lookupNetwork on_mainnet = (probing_mainnet, Return (Suspended 1)) /\
  (networkStatus (state c3) = Blocked <->
   isInfuraProviderType (pc_type (providerConfig (state on_mainnet))) = true /\
   exists error, Promise_all good_settlement = Rejected error /\
                 isErrorWithCode error = true /\ blocked_payload error = true).
Proof.
  cbn zeta. split; [exact probing_mainnet_suspended|].
  exact (probe_reports_blocked_only_for_infura on_mainnet probing_mainnet 1 [] good_settlement
           probing_mainnet_suspended (@List.Forall_nil Turn (other_turn 1)) no_switch_meanwhile).
Defined.

Lemma probe_unsubscribes_its_listener_witness :
  let c3 := after (lookupNetwork_resume 1 good_settlement) (turns [] probing_mainnet) in
  lookupNetwork on_mainnet = (probing_mainnet, Return (Suspended 1)) /\
  1 ∈ subscribers (turns [] probing_mainnet) /\ (1 ∉ subscribers c3).
Proof.
  cbn zeta. split; [exact probing_mainnet_suspended|].
  pose proof (probe_unsubscribes_its_listener on_mainnet probing_mainnet 1 [] good_settlement
                probing_mainnet_suspended (@List.Forall_nil Turn (other_turn 1))
                no_switch_meanwhile) as (Hin & Hout & _).
  exact (conj Hin Hout).
Defined.

End CommitInstances.

(** ** Setting up the provider, and undoing a switch *)

Section Lifecycle.
Context `{Dependencies}.

(** X12. [initializeProvider] sets up the provider the active configuration
    asks for and starts a probe against it, without any of the rest of a
    switch: the state is not reset and nothing is published.  When the
    configuration asks for no provider that can be built it throws and the
    controller is as it was. *)
Theorem initializeProvider_installs_without_reset c :
  let c' := after initializeProvider c in
  match network_client (infuraProjectId c) (providerConfig (state c)) with
  | Some client =>
      completion initializeProvider c = Return (Suspended (nextFrame c)) /\
      state c' = state c /\
      providerProxy c' = Some client /\ blockTrackerProxy c' = Some client /\
      ethQuery c' = true /\
      previousProviderConfig c' = previousProviderConfig c /\
      publications (trace c') = publications (trace c) /\
      requests c' = requests c ++ [net_version; eth_getBlockByNumber] /\
      subscribers c' = subscribers c ++ [nextFrame c]
  | None => exists e, initializeProvider c = (c, Throw e)
  end.
Proof.
  cbn zeta.
  destruct (network_client (infuraProjectId c) (providerConfig (state c))) as [client|] eqn:Hclient.
  - assert (Heq : initializeProvider c =
                  (lookupNetwork_started (installed client c), Return (Suspended (nextFrame c)))).
    { unfold initializeProvider, bind, gets.
      rewrite (configureProvider_installs _ c client Hclient).
      change (registerProvider (installed client c)) with (installed client c, Return tt).
      cbn iota. rewrite lookupNetwork_eq. reflexivity. }
    unfold after, completion. rewrite Heq. cbn [fst snd].
    split_and!; try reflexivity.
    + cbn. rewrite publications_app. cbn. rewrite publications_snoc. cbn.
      rewrite !app_nil_r. reflexivity.
    + unfold requests. cbn. rewrite !omap_app. cbn. rewrite app_nil_r. reflexivity.
  - destruct (configureProvider_throws _ c Hclient) as [e He]. exists e.
    unfold initializeProvider, bind, gets. rewrite He. reflexivity.
Qed.

(** X13. Whatever [setActiveNetwork] did with the id it was given, switch,
    throw for an unknown id or throw for a configuration it cannot use, a
    rollback right after it makes the configuration that was active before
    the call the active one again. *)
Theorem rollback_undoes_setActiveNetwork i c :
  providerConfig (state (after rollbackToPreviousProvider (after (setActiveNetwork i) c)))
  = providerConfig (state c).
Proof.
  rewrite rollback_providerConfig. apply setActiveNetwork_previous.
Qed.

(** As [upsertNetworkConfiguration_run], with what the call leaves
    suspended. *)
Lemma upsertNetworkConfiguration_run_async input options c c' i a rpcUrl ticker ref src :
  upsertNetworkConfiguration input options c = (c', Return (i, a)) ->
  truthy (in_rpcUrl input) = Some rpcUrl ->
  truthy (in_ticker input) = Some ticker ->
  truthy (referrer options) = Some ref ->
  truthy (source options) = Some src ->
  let old := networkConfigurations (state c) in
  let oldId := truthy (nc_id <$> find (sameRpcUrl rpcUrl) (Object_values old)) in
  let stored := updated (with_networkConfigurations (obj_set i (upserted input rpcUrl ticker i) old)) in
  let c3 := match oldId with
            | Some _ => stored c
            | None =>
                let c2 := stored (set_randomCalls (S (randomCalls c)) c) in
                set_trace (trace c2 ++ [observed (TrackMetaMetricsEvent (network_added input ticker ref src)) c2]) c2
            end in
  if setActive options then setActiveNetwork i c3 = (c', Return a)
  else c' = c3 /\ a = Done.
Proof.
  intros Hrun Hurl Hticker Href Hsrc. cbn zeta.
  unfold upsertNetworkConfiguration in Hrun. rewrite Hurl, Hticker, Href, Hsrc in Hrun.
  destruct (isStrictHexString (in_chainId input)); [|discriminate Hrun].
  destruct (isSafeChainId (in_chainId input)); [|discriminate Hrun].
  cbn [negb] in Hrun.
  destruct (match URL_error rpcUrl with Some m => includes "Invalid URL" m | None => false end);
    [discriminate Hrun|].
  unfold bind at 1 in Hrun. unfold gets at 1 in Hrun.
  destruct (truthy (nc_id <$> find (sameRpcUrl rpcUrl)
                      (Object_values (networkConfigurations (state c))))) as [k|].
  - unfold bind at 1 in Hrun. unfold ret at 1 in Hrun.
    unfold bind at 1 in Hrun. rewrite update_eq in Hrun.
    unfold bind at 1 in Hrun. unfold ret at 1 in Hrun.
    unfold bind at 1 in Hrun.
    destruct (setActive options).
    + destruct (setActiveNetwork k _) as [c4 [a4|e]] eqn:Hset; [|discriminate Hrun].
      injection Hrun as <- <- <-. unfold upserted, network_added in *. exact Hset.
    + injection Hrun as <- <- <-. split; reflexivity.
  - unfold bind at 1 in Hrun.
    change (random_v4 c) with (set_randomCalls (S (randomCalls c)) c, Return (random (randomCalls c))) in Hrun.
    unfold bind at 1 in Hrun. rewrite update_eq in Hrun.
    unfold bind at 1 in Hrun.
    change (trackMetaMetricsEvent ?p ?c0) with
      (set_trace (trace c0 ++ [observed (TrackMetaMetricsEvent p) c0]) c0, Return tt) in Hrun.
    unfold bind at 1 in Hrun.
    destruct (setActive options).
    + destruct (setActiveNetwork (random (randomCalls c)) _) as [c4 [a4|e]] eqn:Hset; [|discriminate Hrun].
      injection Hrun as <- <- <-. unfold upserted, network_added in *. exact Hset.
    + injection Hrun as <- <- <-. split; reflexivity.
Qed.

(** X14. [upsertNetworkConfiguration] with [setActive] switches to the entry
    it has just written: the active configuration carries the id, URL, chain
    id and ticker of the entry, the configuration before the call is stored
    as previous, so that a rollback goes back to it, and the probe of the
    new network is suspended.  Without [setActive] neither configuration is
    written and no provider is touched. *)
Theorem upsert_setActive_switches input options c c' i a rpcUrl ticker :
  upsertNetworkConfiguration input options c = (c', Return (i, a)) ->
  truthy (in_rpcUrl input) = Some rpcUrl ->
  truthy (in_ticker input) = Some ticker ->
  (setActive options = true ->
   providerConfig (state c') = custom_providerConfig (upserted input rpcUrl ticker i) /\
   previousProviderConfig c' = providerConfig (state c) /\
   providerProxy c' = Some (CustomClient (in_chainId input) rpcUrl) /\
   blockTrackerProxy c' = Some (CustomClient (in_chainId input) rpcUrl) /\
   a = Suspended (nextFrame c) /\
   providerConfig (state (after rollbackToPreviousProvider c')) = providerConfig (state c)) /\
  (setActive options = false ->
   a = Done /\
   providerConfig (state c') = providerConfig (state c) /\
   previousProviderConfig c' = previousProviderConfig c /\
   providerProxy c' = providerProxy c /\ blockTrackerProxy c' = blockTrackerProxy c /\
   networkStatus (state c') = networkStatus (state c)).
Proof.
  intros Hrun Hurl Hticker.
  destruct (upsertNetworkConfiguration_checked _ _ _ _ _ _ Hrun)
    as (rpcUrl' & ticker' & ref & src & Hurl' & Hticker' & Href & Hsrc & _).
  assert (rpcUrl' = rpcUrl) as -> by congruence.
  assert (ticker' = ticker) as -> by congruence.
  pose proof (upsertNetworkConfiguration_run_async _ _ _ _ _ _ _ _ _ _
                Hrun Hurl Hticker Href Hsrc) as Hc'. cbn zeta in Hc'.
  set (old := networkConfigurations (state c)) in *.
  set (entry := upserted input rpcUrl ticker i) in *.
  set (c3 := match truthy (nc_id <$> find (sameRpcUrl rpcUrl) (Object_values old)) with
             | Some _ => _ | None => _ end) in Hc'.
  assert (Hc3 : providerConfig (state c3) = providerConfig (state c) /\
                previousProviderConfig c3 = previousProviderConfig c /\
                providerProxy c3 = providerProxy c /\ blockTrackerProxy c3 = blockTrackerProxy c /\
                networkStatus (state c3) = networkStatus (state c) /\
                nextFrame c3 = nextFrame c /\
                networkConfigurations (state c3) = obj_set i entry old).
  { unfold c3. destruct (truthy (nc_id <$> _)); repeat split. }
  destruct Hc3 as (Hcfg & Hprev & Hpp & Hbt & Hstatus & Hnf & Hreg).
  split; intros Hactive; rewrite Hactive in Hc'.
  - assert (Hget : obj_get i (networkConfigurations (state c3)) = Some entry)
      by (rewrite Hreg; apply obj_get_set_eq).
    rewrite (setActiveNetwork_found i c3 entry Hget) in Hc'.
    set (c5 := updated (with_providerConfig (custom_providerConfig entry))
                 (set_previousProviderConfig (providerConfig (state c3)) c3)) in Hc'.
    destruct (refreshNetwork_run c5 (CustomClient (in_chainId input) rpcUrl) eq_refl)
      as (c4 & Hrefresh & Hst & _ & Hprev4 & Hpp4 & Hbt4 & Hnf4 & _).
    rewrite Hrefresh in Hc'. injection Hc' as <- <-.
    assert (Hprevious : previousProviderConfig (lookupNetwork_started c4) = providerConfig (state c)).
    { cbn. rewrite Hprev4. cbn. exact Hcfg. }
    split_and!.
    + cbn. rewrite Hst. reflexivity.
    + exact Hprevious.
    + cbn. exact Hpp4.
    + cbn. exact Hbt4.
    + cbn. rewrite Hnf. reflexivity.
    + rewrite rollback_providerConfig. exact Hprevious.
  - destruct Hc' as [-> ->]. split_and!; [reflexivity|assumption..].
Qed.

End Lifecycle.

(** ** The provider and its proxies *)

Section Provider.
Context `{Dependencies}.

Lemma provider_untouched c c' :
  providerProxy c' = providerProxy c -> blockTrackerProxy c' = blockTrackerProxy c ->
  ethQuery c' = ethQuery c -> trace c' = trace c ->
  provider_invariant c -> provider_invariant c'.
Proof. unfold provider_invariant. intros -> -> -> ->. auto. Qed.

Lemma provider_log e :
  match e with SendAsync _ None => False | _ => True end ->
  stable provider_invariant (log e).
Proof.
  intros He c (Hp & Hq & Ht). split; [exact Hp|]. split; [exact Hq|].
  cbn. apply Forall_app. split; [exact Ht|]. apply Forall_singleton. exact He.
Qed.

Lemma provider_installed client c :
  provider_invariant c -> provider_invariant (installed client c).
Proof.
  intros (Hp & Hq & Ht). split; [reflexivity|]. split.
  - cbn. split; [eauto|reflexivity].
  - cbn. apply Forall_app. split; [exact Ht|]. apply Forall_singleton. exact I.
Qed.

Lemma provider_setupInfuraProvider type : stable provider_invariant (setupInfuraProvider type).
Proof.
  intros c Hc.
  replace (after (setupInfuraProvider type) c)
    with (installed (InfuraClient type (infuraProjectId c)) c).
  - apply provider_installed, Hc.
  - destruct c as [st q pid prev pp bt subs fr nf rc tr]. destruct pp, bt; reflexivity.
Qed.

Lemma provider_setupStandardProvider rpcUrl chainId :
  stable provider_invariant (setupStandardProvider rpcUrl chainId).
Proof.
  intros c Hc.
  replace (after (setupStandardProvider rpcUrl chainId) c)
    with (installed (CustomClient chainId rpcUrl) c).
  - apply provider_installed, Hc.
  - destruct c as [st q pid prev pp bt subs fr nf rc tr]. destruct pp, bt; reflexivity.
Qed.

Lemma provider_registerProvider : stable provider_invariant registerProvider.
Proof.
  intros c (Hp & Hq & Ht).
  destruct (providerProxy c) as [client|] eqn:Hpp.
  - replace (after registerProvider c) with (set_ethQuery true c)
      by (unfold after, registerProvider, bind, getProviderAndBlockTracker, gets; cbn;
          rewrite Hpp; reflexivity).
    split; [cbn; rewrite Hpp; exact Hp|]. split; [|exact Ht]. cbn. rewrite Hpp. split; [eauto|reflexivity].
  - replace (after registerProvider c) with c
      by (unfold after, registerProvider, bind, getProviderAndBlockTracker, gets; cbn;
          rewrite Hpp; reflexivity).
    split; [rewrite Hpp; exact Hp|]. split; [rewrite Hpp; exact Hq|exact Ht].
Qed.

Lemma provider_lookupNetwork : stable provider_invariant lookupNetwork.
Proof.
  intros c (Hp & Hq & Ht). unfold after. rewrite lookupNetwork_eq.
  destruct (ethQuery c) eqn:Hquery;
    [|cbn [fst]; split; [exact Hp|]; split; [rewrite Hquery; exact Hq|exact Ht]].
  destruct (proj1 Hq eq_refl) as [client Hclient].
  split; [exact Hp|]. split; [cbn; rewrite Hquery; exact Hq|].
  cbn. rewrite Hclient. apply Forall_app. split; [exact Ht|].
  repeat constructor.
Qed.

Lemma provider_getEIP1559Compatibility : stable provider_invariant getEIP1559Compatibility.
Proof.
  intros c (Hp & Hq & Ht). unfold after, getEIP1559Compatibility, bind, gets. cbn.
  destruct (EIPS (networkDetails (state c)) !! 1559%N);
    [cbn; split; [exact Hp|]; split; [exact Hq|exact Ht]|].
  destruct (ethQuery c) eqn:Hquery; cbn;
    [|split; [exact Hp|]; split; [rewrite Hquery; exact Hq|exact Ht]].
  destruct (proj1 Hq eq_refl) as [client Hclient].
  split; [exact Hp|]. split; [cbn; rewrite Hquery; exact Hq|].
  cbn. rewrite Hclient. apply Forall_app. split; [exact Ht|]. repeat constructor.
Qed.

Lemma provider_enter f : stable provider_invariant (enter f).
Proof. intros c Hc. eapply provider_untouched; [..|exact Hc]; reflexivity. Qed.

Ltac provider_steps :=
  repeat first
    [ match goal with
      | |- stable _ lookupNetwork => apply provider_lookupNetwork
      | |- stable _ getEIP1559Compatibility => apply provider_getEIP1559Compatibility
      | |- stable _ (setupInfuraProvider _) => apply provider_setupInfuraProvider
      | |- stable _ (setupStandardProvider _ _) => apply provider_setupStandardProvider
      | |- stable _ registerProvider => apply provider_registerProvider
      | |- stable _ (enter _) => apply provider_enter
      | |- stable _ (log _) => apply provider_log; exact I
      | |- stable _ (ret _) => apply stable_ret
      | |- stable _ (throw _) => apply stable_throw
      | |- stable _ (gets _) => apply stable_gets
      | |- stable _ (modify _) =>
          apply stable_modify; intros ? ?;
          (eapply provider_untouched; [..|eassumption]; repeat case_match; reflexivity)
      | |- stable _ (for_each _ _) => apply stable_for_each; intros ?
      | |- stable _ (bind _ _) => apply stable_bind; [| intros ?]
      | |- stable _ (match ?x with _ => _ end) => destruct x
      end
    | progress unfold initializeProvider, setProviderType, setActiveNetwork, resetConnection,
        rollbackToPreviousProvider, upsertNetworkConfiguration, removeNetworkConfiguration,
        destroy, getEIP1559Compatibility_resume, lookupNetwork_resume, refreshNetwork,
        configureProvider, trackMetaMetricsEvent, random_v4, update, publish, listener,
        subscribe, unsubscribe, leave ].

Lemma provider_turn t c : provider_invariant c -> provider_invariant (turn t c).
Proof.
  revert c. destruct t; cbn [turn].
  all: match goal with
       | |- forall c, _ -> _ (after ?m c) => change (stable provider_invariant m)
       end.
  all: provider_steps.
Qed.

(** X15. From its construction on and whatever turns are taken, the controller
    has both proxies on the same client or neither on any, has [#ethQuery]
    exactly when the proxies have their client, and sends every request to a
    client: the guards of [lookupNetwork] and [getEIP1559Compatibility] keep
    requests from being sent before a provider is there. *)
Theorem proxies_are_installed_together s projectId c ts :
  new_NetworkController s projectId = Return c ->
  let c' := turns ts c in
  providerProxy c' = blockTrackerProxy c' /\
  (ethQuery c' = true <-> is_Some (providerProxy c')) /\
  Forall sent_to_a_client (trace c').
Proof.
  intros Hnew. cbn zeta.
  assert (Hinit : provider_invariant c).
  { unfold new_NetworkController in Hnew. destruct (truthy projectId); [|discriminate].
    injection Hnew as <-. split; [reflexivity|]. split; [|constructor].
    cbn. split; [discriminate|]. intros [? [=]]. }
  clear Hnew. revert c Hinit. induction ts as [|t ts IH]; intros c Hinit; [exact Hinit|].
  cbn [turns fold_left]. apply IH, provider_turn, Hinit.
Qed.

End Provider.

Lemma proxies_are_installed_together_witness :
  let c' := turns (H := sample_Dependencies)
              [call_initializeProvider; resume_lookupNetwork 0 good_settlement;
               call_setProviderType goerli] fresh_controller in
  new_NetworkController no_state (Some "infura-project-id") = Return fresh_controller /\
  providerProxy c' = blockTrackerProxy c' /\
  (ethQuery c' = true <-> is_Some (providerProxy c')).
Proof.
  cbn zeta.
  assert (Hnew : new_NetworkController no_state (Some "infura-project-id") = Return fresh_controller)
    by reflexivity.
  split; [exact Hnew|].
  exact (conj (proj1 (proxies_are_installed_together (H := sample_Dependencies) no_state
                        (Some "infura-project-id") fresh_controller
                        [call_initializeProvider; resume_lookupNetwork 0 good_settlement;
                         call_setProviderType goerli] Hnew))
              (proj1 (proj2 (proxies_are_installed_together (H := sample_Dependencies) no_state
                        (Some "infura-project-id") fresh_controller
                        [call_initializeProvider; resume_lookupNetwork 0 good_settlement;
                         call_setProviderType goerli] Hnew)))).
Defined.

(** ** Closed instances of the further properties *)

Section FurtherInstances.
#[local] Existing Instance sample_Dependencies.

Lemma setProviderType_rejects_other_types_witness :
  isInfuraProviderType rpc = false /\
  exists message, setProviderType rpc on_mainnet = (on_mainnet, Throw (AssertionError message)).
Proof.
  split; [reflexivity|].
  exact (setProviderType_rejects_other_types rpc on_mainnet eq_refl).
Defined.

Lemma setProviderType_switches_witness :
  isInfuraProviderType sepolia = true /\
  pc_chainId (providerConfig (state (after (setProviderType sepolia) on_mainnet))) = ChainId sepolia /\
  pc_rpcUrl (providerConfig (state (after (setProviderType sepolia) on_mainnet))) = None.
Proof.
  split; [reflexivity|].
  pose proof (setProviderType_switches sepolia on_mainnet eq_refl)
    as (_ & _ & Hchain & _ & Hurl & _).
  exact (conj Hchain Hurl).
Defined.

Lemma with_incomplete_network_entry :
  obj_get "testNetworkConfigurationId" (networkConfigurations (state with_incomplete_network))
  = Some incomplete_configuration.
Proof. vm_compute. reflexivity. Qed.

Lemma setActiveNetwork_incomplete_configuration_witness :
  obj_get "testNetworkConfigurationId" (networkConfigurations (state with_incomplete_network))
  = Some incomplete_configuration /\
  (nc_chainId incomplete_configuration = None \/ nc_rpcUrl incomplete_configuration = None) /\
  completion (setActiveNetwork "testNetworkConfigurationId") with_incomplete_network =
    Throw (Error match nc_chainId incomplete_configuration with
                 | Some _ => "rpcUrl must be provided for custom RPC endpoints"
                 | None => "chainId must be provided for custom RPC endpoints"
                 end).
Proof.
  split; [exact with_incomplete_network_entry|]. split; [right; reflexivity|].
  exact (proj1 (setActiveNetwork_incomplete_configuration "testNetworkConfigurationId"
                  with_incomplete_network incomplete_configuration
                  with_incomplete_network_entry (or_intror eq_refl))).
Defined.

Lemma decimal_chain_upsert_throws :
  upsertNetworkConfiguration decimal_chain_definition from_a_dapp with_one_network =
  (with_one_network, Throw (Error "Value must be a hexadecimal string, starting with 0x.")).
Proof. vm_compute. reflexivity. Qed.

Lemma upsert_throws_before_writing_witness :
  upsertNetworkConfiguration decimal_chain_definition from_a_dapp with_one_network =
    (with_one_network, Throw (Error "Value must be a hexadecimal string, starting with 0x.")) /\
  with_one_network = with_one_network.
Proof.
  split; [exact decimal_chain_upsert_throws|].
  exact (upsert_throws_before_writing _ _ _ _ _ decimal_chain_upsert_throws).
Defined.

Lemma toString_is_inherited : "toString" ∈ Object_prototype.
Proof. apply (bool_decide_eq_true_1 _). vm_compute. reflexivity. Qed.

Lemma setActiveNetwork_inherited_name_witness :
  obj_get "toString" (networkConfigurations (state with_one_network)) = None /\
  "toString" ∈ Object_prototype /\
  completion (setActiveNetwork "toString") with_one_network =
    Throw (Error "chainId must be provided for custom RPC endpoints").
Proof.
  assert (Hnone : obj_get "toString" (networkConfigurations (state with_one_network)) = None).
  { rewrite with_one_network_registry. reflexivity. }
  split; [exact Hnone|]. split; [exact toString_is_inherited|].
  exact (proj1 (setActiveNetwork_inherited_name "toString" with_one_network
                  Hnone toString_is_inherited)).
Defined.

Lemma removeNetworkConfiguration_removes_one_witness :
  (is_Some (obj_get "uuid-I" (networkConfigurations (state with_one_network))) \/
   "uuid-I" ∈ Object_prototype) /\
  obj_get "uuid-I"
    (networkConfigurations (state (after (removeNetworkConfiguration "uuid-I") with_one_network)))
  = None /\
  (is_Some (obj_get "toString" (networkConfigurations (state with_one_network))) \/
   "toString" ∈ Object_prototype) /\
  completion (removeNetworkConfiguration "toString") with_one_network = Return tt.
Proof.
  assert (Hsome : is_Some (obj_get "uuid-I" (networkConfigurations (state with_one_network)))).
  { rewrite with_one_network_registry. eexists. reflexivity. }
  split; [left; exact Hsome|].
  split; [exact (proj1 (proj2 (proj2 (removeNetworkConfiguration_removes_one "uuid-I"
                                         with_one_network) (or_introl Hsome))))|].
  split; [right; exact toString_is_inherited|].
  exact (proj1 (proj2 (removeNetworkConfiguration_removes_one "toString" with_one_network)
                  (or_intror toString_is_inherited))).
Defined.

Lemma first_upsert_runs :
  upsertNetworkConfiguration first_definition from_a_dapp fresh_controller =
  (with_one_network, Return ("uuid-I", Done)).
Proof. vm_compute. reflexivity. Qed.

Lemma fresh_controller_has_no_url e :
  e ∈ Object_values (networkConfigurations (state fresh_controller)) ->
  sameRpcUrl "https://x" e = false.
Proof. intros Hin. inversion Hin. Qed.

Lemma upsert_then_remove_restores_witness :
  upsertNetworkConfiguration first_definition from_a_dapp fresh_controller =
    (with_one_network, Return ("uuid-I", Done)) /\
  networkConfigurations (state (after (removeNetworkConfiguration "uuid-I") with_one_network))
  = networkConfigurations (state fresh_controller).
Proof.
  split; [exact first_upsert_runs|].
  exact (proj2 (proj2 (upsert_then_remove_restores first_definition from_a_dapp fresh_controller
                         with_one_network "uuid-I" Done "https://x" first_upsert_runs eq_refl
                         fresh_controller_has_no_url eq_refl))).
Defined.

Lemma sample_random_not_empty n : random n <> "".
Proof. cbv. discriminate. Qed.

Lemma empty_registry_invariant : registry_invariant [].
Proof. split; [reflexivity|]. split; constructor. Qed.

Lemma registry_invariant_kept_witness :
  (forall n, random n <> "") /\
  registry_invariant (networkConfigurations (state fresh_controller)) /\
  registry_invariant
    (networkConfigurations
       (state (turns [call_upsertNetworkConfiguration first_definition from_a_dapp;
                      call_upsertNetworkConfiguration second_definition and_switch;
                      call_removeNetworkConfiguration "uuid-I"] fresh_controller))).
Proof.
  split; [exact sample_random_not_empty|]. split; [exact empty_registry_invariant|].
  exact (registry_invariant_kept _ fresh_controller sample_random_not_empty empty_registry_invariant).
Defined.

Lemma only_upsert_and_remove_write_the_record_witness :
  forallb keeps_registry [call_setProviderType goerli; call_rollbackToPreviousProvider] = true /\
  networkConfigurations
    (state (turns [call_setProviderType goerli; call_rollbackToPreviousProvider] with_one_network))
  = networkConfigurations (state with_one_network).
Proof.
  split; [reflexivity|].
  exact (only_upsert_and_remove_write_the_record
           [call_setProviderType goerli; call_rollbackToPreviousProvider] with_one_network eq_refl).
Defined.

Lemma second_upsert_switches :
  upsertNetworkConfiguration second_definition and_switch with_one_network =
  (after (upsertNetworkConfiguration second_definition and_switch) with_one_network,
   Return ("uuid-I", Suspended 0)).
Proof. vm_compute. reflexivity. Qed.

Lemma upsert_setActive_switches_witness :
  let c' := after (upsertNetworkConfiguration second_definition and_switch) with_one_network in
  upsertNetworkConfiguration second_definition and_switch with_one_network =
    (c', Return ("uuid-I", Suspended 0)) /\
  providerConfig (state c') =
    custom_providerConfig (upserted second_definition "HTTPS://X" "X" "uuid-I") /\
  providerConfig (state (after rollbackToPreviousProvider c')) =
    providerConfig (state with_one_network).
Proof.
  cbn zeta. split; [exact second_upsert_switches|].
  pose proof (proj1 (upsert_setActive_switches second_definition and_switch with_one_network _
                       "uuid-I" (Suspended 0) "HTTPS://X" "X"
                       second_upsert_switches eq_refl eq_refl) eq_refl)
    as (Hcfg & _ & _ & _ & _ & Hback).
  exact (conj Hcfg Hback).
Defined.

End FurtherInstances.
